(** * ffmpeg_bitrate_stats: the bitrate statistics of [BitrateStats]

    A shallow embedding of [src/ffmpeg_bitrate_stats/__main__.py] and the
    properties of its normalizer, chunker, chunk bitrate calculator and
    statistics assembler.

    Numbers.  The program is embedded twice.  In the first embedding a
    Python [int] or [float] is an exact rational, or the float [nan]:
    binary rounding, overflow and infinities are left out, and results of
    arithmetic are kept in lowest terms ([Qred]), which lets computed
    numbers be compared with Leibniz equality.  It carries the properties
    that do not turn on how a float rounds: the constructor, the normalizer,
    the repair pass, the shape of the chunks, the cache and the flow of the
    statistics.  In the second embedding, the module [B64], a [float] is the
    IEEE 754 binary64 number of the interpreter; it carries the properties
    of the time window, of a zero span or duration, of the maximum factor
    and of the reported duration, which are decided by single roundings.

    Effects.  The program writes to [stderr], mutates the attributes of
    [self] and stops with an exception ([sys.exit] included); no exception is
    ever caught.  A computation is therefore a function from the current
    state and the lines written so far to an outcome and the lines written. *)

From Stdlib Require Import ZArith QArith Qround List String Ascii Bool Lia.
From Stdlib Require Import SpecFloat.
Import ListNotations.

Local Open Scope Z_scope.

(** ** Python numbers *)

Inductive pyfloat : Type :=
| Fin (q : Q)
| NaN.

Definition fadd (a b : pyfloat) : pyfloat :=
  match a, b with
  | Fin x, Fin y => Fin (Qred (x + y))
  | _, _ => NaN
  end.

Definition fsub (a b : pyfloat) : pyfloat :=
  match a, b with
  | Fin x, Fin y => Fin (Qred (x - y))
  | _, _ => NaN
  end.

(** Comparisons with [nan] are all false. *)
Definition flt (a b : pyfloat) : bool :=
  match a, b with
  | Fin x, Fin y =>
      match Qcompare x y with Lt => true | _ => false end
  | _, _ => false
  end.

Definition fis_zero (a : pyfloat) : bool :=
  match a with
  | Fin x => Qeq_bool x 0
  | NaN => false
  end.

(** Rounding to the nearest integer, ties to the even one. *)
Definition round_half_even (x : Q) : Z :=
  let f := Qfloor x in
  match Qcompare (x - inject_Z f) (1 # 2) with
  | Lt => f
  | Gt => f + 1
  | Eq => if Z.even f then f else f + 1
  end.

Definition pow10 (nd : nat) : Z := 10 ^ Z.of_nat nd.

(** [round(x, nd)] for [nd >= 0]. *)
Definition fround (x : pyfloat) (nd : nat) : pyfloat :=
  match x with
  | Fin q =>
      Fin (Qred (inject_Z (round_half_even (q * inject_Z (pow10 nd)))
                 / inject_Z (pow10 nd)))
  | NaN => NaN
  end.

(** ** Python values, exceptions and outcomes *)

Inductive value : Type :=
| VNum (x : pyfloat)     (* an int or a float *)
| VStr (s : string)      (* a str *)
| VNone.

Inductive exn : Type :=
| SystemExit (code : Z)
| KeyError
| IndexError
| TypeError
| ValueError
| ZeroDivisionError
| OverflowError.

Inductive result (A : Type) : Type :=
| Ok (a : A)
| Raise (e : exn).

Arguments Ok {A} a.
Arguments Raise {A} e.

Definition of_Z (z : Z) : value := VNum (Fin (inject_Z z)).

Definition is_number (v : value) : bool :=
  match v with
  | VNum _ => true
  | _ => false
  end.

Definition truthy (v : value) : bool :=
  match v with
  | VNum x => negb (fis_zero x)
  | VStr s => negb (String.eqb s "")
  | VNone => false
  end.

(** [a == b] where [b] is a str literal. *)
Definition eq_str (a : value) (lit : string) : bool :=
  match a with
  | VStr s => String.eqb s lit
  | _ => false
  end.

Definition py_lt (a b : value) : result bool :=
  match a, b with
  | VNum x, VNum y => Ok (flt x y)
  | VStr s, VStr t => Ok (String.ltb s t)
  | _, _ => Raise TypeError
  end.

Definition py_gt (a b : value) : result bool := py_lt b a.

Definition py_add (a b : value) : result value :=
  match a, b with
  | VNum x, VNum y => Ok (VNum (fadd x y))
  | VStr s, VStr t => Ok (VStr (s ++ t))
  | _, _ => Raise TypeError
  end.

Definition py_sub (a b : value) : result value :=
  match a, b with
  | VNum x, VNum y => Ok (VNum (fsub x y))
  | _, _ => Raise TypeError
  end.

(** [a / b]: a zero divisor raises, whatever the dividend. *)
Definition py_truediv (a b : value) : result value :=
  match a, b with
  | VNum x, VNum y =>
      if fis_zero y then Raise ZeroDivisionError
      else match x, y with
           | Fin p, Fin q => Ok (VNum (Fin (Qred (p / q))))
           | _, _ => Ok (VNum NaN)
           end
  | _, _ => Raise TypeError
  end.

Definition py_round (a : value) (nd : nat) : result value :=
  match a with
  | VNum x => Ok (VNum (fround x nd))
  | _ => Raise TypeError
  end.

(** *** Reading numbers from text

    [float(s)] and [int(s)] on the decimal literals that ffprobe writes
    (an optional sign, digits, an optional fraction) and on the marker
    ["NaN"].  Other texts that Python would accept (exponents, infinities,
    blanks, underscores) are not produced by ffprobe and are treated here as
    malformed. *)

Definition digit_of (c : ascii) : option Z :=
  let k := Z.of_nat (nat_of_ascii c) in
  if (48 <=? k) && (k <=? 57) then Some (k - 48) else None.

(** Leading digits of [s]: their value on top of [acc], how many there
    were, and the rest of the text. *)
Fixpoint read_digits (s : string) (acc : Z) (cnt : nat) : Z * nat * string :=
  match s with
  | String c s' =>
      match digit_of c with
      | Some d => read_digits s' (10 * acc + d) (S cnt)
      | None => (acc, cnt, s)
      end
  | EmptyString => (acc, cnt, s)
  end.

Definition lower (c : ascii) : ascii :=
  let k := nat_of_ascii c in
  if (Nat.leb 65 k && Nat.leb k 90)%bool then ascii_of_nat (k + 32) else c.

Fixpoint lowercase (s : string) : string :=
  match s with
  | String c s' => String (lower c) (lowercase s')
  | EmptyString => EmptyString
  end.

Definition split_sign (s : string) : bool * string :=
  match s with
  | String "-"%char s' => (true, s')
  | String "+"%char s' => (false, s')
  | _ => (false, s)
  end.

Definition signed (neg : bool) (q : Q) : Q := if neg then Qopp q else q.

Definition float_of_string (s : string) : result pyfloat :=
  let '(neg, body) := split_sign s in
  if String.eqb (lowercase body) "nan" then Ok NaN
  else
    let '(ip, ni, rest) := read_digits body 0 O in
    match rest with
    | EmptyString =>
        if Nat.eqb ni 0 then Raise ValueError
        else Ok (Fin (Qred (signed neg (inject_Z ip))))
    | String "."%char frac =>
        let '(fp, nf, rest') := read_digits frac 0 O in
        match rest' with
        | EmptyString =>
            if Nat.eqb (ni + nf) 0 then Raise ValueError
            else Ok (Fin (Qred (signed neg
                   (inject_Z ip + inject_Z fp / inject_Z (pow10 nf)))))
        | _ => Raise ValueError
        end
    | _ => Raise ValueError
    end.

Definition int_of_string (s : string) : result Z :=
  let '(neg, body) := split_sign s in
  let '(ip, ni, rest) := read_digits body 0 O in
  match rest with
  | EmptyString =>
      if Nat.eqb ni 0 then Raise ValueError
      else Ok (if neg then - ip else ip)
  | _ => Raise ValueError
  end.

(** [float(v)] *)
Definition py_float (v : value) : result pyfloat :=
  match v with
  | VNum x => Ok x
  | VStr s => float_of_string s
  | VNone => Raise TypeError
  end.

(** ** Computations

    [M S A]: from a state [S] and the lines already on [stderr] to either a
    value and a new state, or the exception that ends the run, and the lines
    on [stderr] afterwards. *)

Definition M (S A : Type) : Type :=
  S -> list string -> result (A * S) * list string.

Definition ret {S A} (a : A) : M S A :=
  fun s err => (Ok (a, s), err).

Definition bind {S A B} (c : M S A) (k : A -> M S B) : M S B :=
  fun s err =>
    match c s err with
    | (Ok (a, s'), err') => k a s' err'
    | (Raise e, err') => (Raise e, err')
    end.

Definition raise {S A} (e : exn) : M S A :=
  fun _ err => (Raise e, err).

Definition lift {S A} (r : result A) : M S A :=
  match r with
  | Ok a => ret a
  | Raise e => raise e
  end.

Definition get {S} : M S S := fun s err => (Ok (s, s), err).

Definition modify {S} (f : S -> S) : M S unit :=
  fun s err => (Ok (tt, f s), err).

Definition print_stderr {S} (msg : string) : M S unit :=
  fun s err => (Ok (tt, s), err ++ [msg]).

Definition sys_exit {S A} (code : Z) : M S A := raise (SystemExit code).

Definition when {S} (b : bool) (c : M S unit) : M S unit :=
  if b then c else ret tt.

Declare Scope py_scope.
Delimit Scope py_scope with py.
Notation "x <- c ;; k" := (bind c (fun x => k))
  (at level 100, c at next level, right associativity) : py_scope.
Notation "' pat <- c ;; k" := (bind c (fun x => match x with pat => k end))
  (at level 100, pat pattern, c at next level, right associativity) : py_scope.
Notation "c ;;; k" := (bind c (fun _ => k))
  (at level 100, right associativity) : py_scope.
Local Open Scope py_scope.

(** ** Data *)

(** One entry of [json.loads(stdout)["packets"]]: each key may be absent,
    and ffprobe writes every value as a JSON string. *)
Record packet_info : Type := {
  flags : option string;
  pts_time : option string;
  duration_time : option string;
  size_text : option string
}.

(** [packet_info[key]] *)
Definition subscript (field : option string) : result string :=
  match field with
  | Some s => Ok s
  | None => Raise KeyError
  end.

(** The dict built for each packet by [_calculate_frame_sizes]. *)
Module Frame.
Record t : Type := mk {
  n : Z;
  frame_type : string;
  pts : value;
  size : Z;
  duration : value
}.

Definition set_duration (f : t) (d : value) : t :=
  mk (n f) (frame_type f) (pts f) (size f) d.
End Frame.

Definition frame : Type := Frame.t.

(** The dict returned by [_assemble_bitrate_statistics]. *)
Record summary : Type := {
  s_input_file : string;
  s_stream_type : string;
  s_avg_fps : value;
  s_num_frames : Z;
  s_avg_bitrate : value;
  s_avg_bitrate_over_chunks : value;
  s_max_bitrate : value;
  s_min_bitrate : value;
  s_max_bitrate_factor : value;
  s_bitrate_per_chunk : list value;
  s_aggregation : string;
  s_chunk_size : value;
  s_duration : value
}.

(** The attributes of a [BitrateStats] object.  [avg_bitrate],
    [avg_bitrate_over_chunks] and [max_bitrate_factor] do not exist before
    [_assemble_bitrate_statistics] sets them; [bitrate_stats] is [{}] until
    then. *)
Record BitrateStats : Type := {
  input_file : string;
  stream_type : string;
  aggregation : string;
  chunk_size : value;
  dry_run : bool;
  verbose : bool;
  duration : value;
  fps : value;
  max_bitrate : value;
  min_bitrate : value;
  moving_avg_bitrate : list value;
  frames : list frame;
  bitrate_stats : option summary;
  rounding_factor : nat;
  _chunks : list value;
  avg_bitrate : option value;
  avg_bitrate_over_chunks : option value;
  max_bitrate_factor : option value
}.

Definition set_frames (v : list frame) (o : BitrateStats) : BitrateStats :=
  {| input_file := input_file o; stream_type := stream_type o;
     aggregation := aggregation o; chunk_size := chunk_size o;
     dry_run := dry_run o; verbose := verbose o; duration := duration o;
     fps := fps o; max_bitrate := max_bitrate o; min_bitrate := min_bitrate o;
     moving_avg_bitrate := moving_avg_bitrate o; frames := v;
     bitrate_stats := bitrate_stats o; rounding_factor := rounding_factor o;
     _chunks := _chunks o; avg_bitrate := avg_bitrate o;
     avg_bitrate_over_chunks := avg_bitrate_over_chunks o;
     max_bitrate_factor := max_bitrate_factor o |}.

Definition set_duration (v : value) (o : BitrateStats) : BitrateStats :=
  {| input_file := input_file o; stream_type := stream_type o;
     aggregation := aggregation o; chunk_size := chunk_size o;
     dry_run := dry_run o; verbose := verbose o; duration := v;
     fps := fps o; max_bitrate := max_bitrate o; min_bitrate := min_bitrate o;
     moving_avg_bitrate := moving_avg_bitrate o; frames := frames o;
     bitrate_stats := bitrate_stats o; rounding_factor := rounding_factor o;
     _chunks := _chunks o; avg_bitrate := avg_bitrate o;
     avg_bitrate_over_chunks := avg_bitrate_over_chunks o;
     max_bitrate_factor := max_bitrate_factor o |}.

Definition set_fps (v : value) (o : BitrateStats) : BitrateStats :=
  {| input_file := input_file o; stream_type := stream_type o;
     aggregation := aggregation o; chunk_size := chunk_size o;
     dry_run := dry_run o; verbose := verbose o; duration := duration o;
     fps := v; max_bitrate := max_bitrate o; min_bitrate := min_bitrate o;
     moving_avg_bitrate := moving_avg_bitrate o; frames := frames o;
     bitrate_stats := bitrate_stats o; rounding_factor := rounding_factor o;
     _chunks := _chunks o; avg_bitrate := avg_bitrate o;
     avg_bitrate_over_chunks := avg_bitrate_over_chunks o;
     max_bitrate_factor := max_bitrate_factor o |}.

Definition set_max_bitrate (v : value) (o : BitrateStats) : BitrateStats :=
  {| input_file := input_file o; stream_type := stream_type o;
     aggregation := aggregation o; chunk_size := chunk_size o;
     dry_run := dry_run o; verbose := verbose o; duration := duration o;
     fps := fps o; max_bitrate := v; min_bitrate := min_bitrate o;
     moving_avg_bitrate := moving_avg_bitrate o; frames := frames o;
     bitrate_stats := bitrate_stats o; rounding_factor := rounding_factor o;
     _chunks := _chunks o; avg_bitrate := avg_bitrate o;
     avg_bitrate_over_chunks := avg_bitrate_over_chunks o;
     max_bitrate_factor := max_bitrate_factor o |}.

Definition set_min_bitrate (v : value) (o : BitrateStats) : BitrateStats :=
  {| input_file := input_file o; stream_type := stream_type o;
     aggregation := aggregation o; chunk_size := chunk_size o;
     dry_run := dry_run o; verbose := verbose o; duration := duration o;
     fps := fps o; max_bitrate := max_bitrate o; min_bitrate := v;
     moving_avg_bitrate := moving_avg_bitrate o; frames := frames o;
     bitrate_stats := bitrate_stats o; rounding_factor := rounding_factor o;
     _chunks := _chunks o; avg_bitrate := avg_bitrate o;
     avg_bitrate_over_chunks := avg_bitrate_over_chunks o;
     max_bitrate_factor := max_bitrate_factor o |}.

Definition set_chunks (v : list value) (o : BitrateStats) : BitrateStats :=
  {| input_file := input_file o; stream_type := stream_type o;
     aggregation := aggregation o; chunk_size := chunk_size o;
     dry_run := dry_run o; verbose := verbose o; duration := duration o;
     fps := fps o; max_bitrate := max_bitrate o; min_bitrate := min_bitrate o;
     moving_avg_bitrate := moving_avg_bitrate o; frames := frames o;
     bitrate_stats := bitrate_stats o; rounding_factor := rounding_factor o;
     _chunks := v; avg_bitrate := avg_bitrate o;
     avg_bitrate_over_chunks := avg_bitrate_over_chunks o;
     max_bitrate_factor := max_bitrate_factor o |}.

Definition set_assembled (ab aboc mbf : value) (r : summary)
    (o : BitrateStats) : BitrateStats :=
  {| input_file := input_file o; stream_type := stream_type o;
     aggregation := aggregation o; chunk_size := chunk_size o;
     dry_run := dry_run o; verbose := verbose o; duration := duration o;
     fps := fps o; max_bitrate := max_bitrate o; min_bitrate := min_bitrate o;
     moving_avg_bitrate := moving_avg_bitrate o; frames := frames o;
     bitrate_stats := Some r; rounding_factor := rounding_factor o;
     _chunks := _chunks o; avg_bitrate := Some ab;
     avg_bitrate_over_chunks := Some aboc;
     max_bitrate_factor := Some mbf |}.

(** ** The class [BitrateStats] *)

Local Open Scope string_scope.

Section Methods.

(** Whatever state the caller has; functions that do not touch [self]
    are written for any. *)
Context {S : Type}.

(** [BitrateStats.__init__] *)
Definition BitrateStats_init (input_file stream_type aggregation : string)
    (chunk_size : value) (dry_run verbose : bool) : M S BitrateStats :=
  when (negb (existsb (String.eqb stream_type) ["audio"; "video"]))
    (print_stderr "Stream type must be audio/video" ;;; sys_exit 1) ;;;
  when (negb (existsb (String.eqb aggregation) ["time"; "gop"]))
    (print_stderr "Wrong aggregation type" ;;; sys_exit 1) ;;;
  when (String.eqb aggregation "gop" && String.eqb stream_type "audio")
    (print_stderr "GOP aggregation for audio does not make sense" ;;;
     sys_exit 1) ;;;
  negative <- (if truthy chunk_size
               then lift (py_lt chunk_size (of_Z 0))
               else ret false) ;;
  when negative
    (print_stderr "Chunk size must be greater than 0" ;;; sys_exit 1) ;;;
  ret {| input_file := input_file;
         stream_type := stream_type;
         aggregation := aggregation;
         chunk_size := chunk_size;
         dry_run := dry_run;
         verbose := verbose;
         duration := of_Z 0;
         fps := of_Z 0;
         max_bitrate := of_Z 0;
         min_bitrate := of_Z 0;
         moving_avg_bitrate := [];
         frames := [];
         bitrate_stats := None;
         rounding_factor := 3;
         _chunks := [];
         avg_bitrate := None;
         avg_bitrate_over_chunks := None;
         max_bitrate_factor := None |}.

(** The loop of [_fix_durations]: [for i in range(len(ret) - 1)] reads
    [ret[i]] and [ret[i+1]] and writes [ret[i]["duration"]]; it is
    followed here along the list, [curr] being [ret[i]] and [next]
    [ret[i+1]].  Returns the updated list and [last_duration]. *)
Fixpoint _fix_durations_loop (ret_ : list frame) (last_duration : value)
    : M S (list frame * value) :=
  match ret_ with
  | curr :: ((next :: _) as rest) =>
      let curr_pts := Frame.pts curr in
      let next_pts := Frame.pts next in
      lt <- lift (py_lt next_pts curr_pts) ;;
      when lt
        (print_stderr
           "Non-monotonically increasing PTS, duration/bitrate may be invalid") ;;;
      last_duration <- lift (py_sub next_pts curr_pts) ;;
      '(rest', last) <- _fix_durations_loop rest last_duration ;;
      ret (Frame.set_duration curr last_duration :: rest', last)
  | _ => ret (ret_, last_duration)
  end.

(** [ret[-1]["duration"] = last_duration] *)
Fixpoint set_last_duration (ret_ : list frame) (last_duration : value)
    : result (list frame) :=
  match ret_ with
  | [] => Raise IndexError
  | [f] => Ok [Frame.set_duration f last_duration]
  | f :: rest =>
      match set_last_duration rest last_duration with
      | Ok rest' => Ok (f :: rest')
      | Raise e => Raise e
      end
  end.

(** [BitrateStats._fix_durations] *)
Definition _fix_durations (ret_ : list frame) : M S (list frame) :=
  '(ret_, last_duration) <- _fix_durations_loop ret_ VNone ;;
  lift (set_last_duration ret_ last_duration).

(** [next((x["duration_time"] for x in info if "duration_time" in x.keys()), "NaN")] *)
Fixpoint first_duration_time (info : list packet_info) : value :=
  match info with
  | [] => VStr "NaN"
  | x :: rest =>
      match duration_time x with
      | Some d => VStr d
      | None => first_duration_time rest
      end
  end.

(** The body of [for packet_info in info], from the packet numbered
    [idx] on. *)
Fixpoint frames_of_info (info : list packet_info) (default_duration : value)
    (idx : Z) : result (list frame) :=
  match info with
  | [] => Ok []
  | packet_info :: rest =>
      match subscript (flags packet_info) with
      | Raise e => Raise e
      | Ok fl =>
          let frame_type := if String.eqb fl "K_" then "I" else "Non-I" in
          match (match pts_time packet_info with
                 | Some t =>
                     match float_of_string t with
                     | Ok x => Ok (VNum x)
                     | Raise e => Raise e
                     end
                 | None => Ok (VStr "NaN")
                 end) with
          | Raise e => Raise e
          | Ok pts =>
              match (match duration_time packet_info with
                     | Some t =>
                         match float_of_string t with
                         | Ok x => Ok (VNum x)
                         | Raise e => Raise e
                         end
                     | None => Ok default_duration
                     end) with
              | Raise e => Raise e
              | Ok duration =>
                  match subscript (size_text packet_info) with
                  | Raise e => Raise e
                  | Ok st =>
                      match int_of_string st with
                      | Raise e => Raise e
                      | Ok size =>
                          match frames_of_info rest default_duration (idx + 1) with
                          | Raise e => Raise e
                          | Ok tl =>
                              Ok (Frame.mk idx frame_type pts size duration :: tl)
                          end
                      end
                  end
              end
          end
      end
  end.

End Methods.

(** The command line handed to [run_command]. *)
Definition ffprobe_cmd (self : BitrateStats) : list string :=
  ["ffprobe"; "-loglevel"; "error"; "-select_streams";
   (String.substring 0 1 (stream_type self) ++ ":0")%string;
   "-show_packets"; "-show_entries";
   "packet=pts_time,dts_time,duration_time,size,flags";
   "-of"; "json"; input_file self].

(** [BitrateStats._calculate_frame_sizes].  The run of ffprobe is outside
    the program: [info] is what [json.loads(stdout)["packets"]] holds when
    the command has succeeded. *)
Definition _calculate_frame_sizes (info : list packet_info)
    : M BitrateStats (list frame) :=
  self <- get ;;
  when (verbose self)
    (print_stderr ("Calculating frame size from " ++ input_file self)) ;;;
  when (dry_run self)
    (print_stderr ("[cmd] " ++ String.concat " " (ffprobe_cmd self)) ;;;
     print_stderr "Aborting prematurely, dry-run specified" ;;;
     sys_exit 0) ;;;
  let default_duration := first_duration_time info in
  ret_ <- lift (frames_of_info info default_duration 1) ;;
  ret_ <- (if eq_str default_duration "NaN"
           then _fix_durations ret_
           else ret ret_) ;;
  modify (set_frames ret_) ;;;
  ret ret_.

(** *** Built-ins over lists *)

(** [sum(xs)]: from the int [0], adding from the left. *)
Fixpoint py_sum_from (acc : value) (xs : list value) : result value :=
  match xs with
  | [] => Ok acc
  | x :: rest =>
      match py_add acc x with
      | Ok acc' => py_sum_from acc' rest
      | Raise e => Raise e
      end
  end.

Definition py_sum (xs : list value) : result value := py_sum_from (of_Z 0) xs.

(** [max(xs)]: the first item unless a later one compares greater. *)
Fixpoint py_max_from (best : value) (xs : list value) : result value :=
  match xs with
  | [] => Ok best
  | x :: rest =>
      match py_gt x best with
      | Ok b => py_max_from (if b then x else best) rest
      | Raise e => Raise e
      end
  end.

Definition py_max (xs : list value) : result value :=
  match xs with
  | [] => Raise ValueError
  | x :: rest => py_max_from x rest
  end.

Fixpoint py_min_from (best : value) (xs : list value) : result value :=
  match xs with
  | [] => Ok best
  | x :: rest =>
      match py_lt x best with
      | Ok b => py_min_from (if b then x else best) rest
      | Raise e => Raise e
      end
  end.

Definition py_min (xs : list value) : result value :=
  match xs with
  | [] => Raise ValueError
  | x :: rest => py_min_from x rest
  end.

(** [np.mean(xs)] of a list of numbers: [nan] (and a warning) when the
    list is empty. *)
Definition np_mean (xs : list value) : result value :=
  match xs with
  | [] => Ok (VNum NaN)
  | _ =>
      match py_sum xs with
      | Ok (VNum (Fin t)) =>
          Ok (VNum (Fin (Qred (t / inject_Z (Z.of_nat (List.length xs))))))
      | Ok (VNum NaN) => Ok (VNum NaN)
      | Ok _ => Raise TypeError
      | Raise e => Raise e
      end
  end.

Definition sum_sizes (fs : list frame) : Z :=
  fold_left (fun acc f => acc + Frame.size f) fs 0.

(** *** The chunker *)

(** The loop of the [gop] branch of [_collect_chunks]. *)
Fixpoint gop_loop (fs : list frame) (aggregation_chunks : list (list frame))
    (curr_list : list frame) : list (list frame) * list frame :=
  match fs with
  | [] => (aggregation_chunks, curr_list)
  | frame :: rest =>
      let curr_list :=
        if negb (String.eqb (Frame.frame_type frame) "I")
        then (curr_list ++ [frame])%list else curr_list in
      if String.eqb (Frame.frame_type frame) "I" then
        let aggregation_chunks :=
          match curr_list with
          | [] => aggregation_chunks
          | _ => (aggregation_chunks ++ [curr_list])%list
          end in
        gop_loop rest aggregation_chunks [frame]
      else gop_loop rest aggregation_chunks curr_list
  end.

(** The loop of the per-time branch of [_collect_chunks]. *)
Fixpoint time_loop (chunk_size : value) (fs : list frame)
    (aggregation_chunks : list (list frame)) (curr_list : list frame)
    (agg_time : pyfloat) : result (list (list frame) * list frame) :=
  match fs with
  | [] => Ok (aggregation_chunks, curr_list)
  | frame :: rest =>
      match py_lt (VNum agg_time) chunk_size with
      | Raise e => Raise e
      | Ok true =>
          match py_float (Frame.duration frame) with
          | Raise e => Raise e
          | Ok d =>
              time_loop chunk_size rest aggregation_chunks
                (curr_list ++ [frame])%list (fadd agg_time d)
          end
      | Ok false =>
          let aggregation_chunks :=
            match curr_list with
            | [] => aggregation_chunks
            | _ => (aggregation_chunks ++ [curr_list])%list
            end in
          match py_float (Frame.duration frame) with
          | Raise e => Raise e
          | Ok d => time_loop chunk_size rest aggregation_chunks [frame] d
          end
      end
  end.

(** [aggregation_chunks] as [_collect_chunks] has it before the bitrates
    are computed. *)
Definition aggregation_chunks_of (aggregation : string) (chunk_size : value)
    (fs : list frame) : result (list (list frame)) :=
  if String.eqb aggregation "gop" then
    let '(aggregation_chunks, curr_list) := gop_loop fs [] [] in
    Ok (aggregation_chunks ++ [curr_list])%list
  else
    match time_loop chunk_size fs [] [] (Fin 0) with
    | Ok (aggregation_chunks, curr_list) =>
        Ok (aggregation_chunks ++ [curr_list])%list
    | Raise e => Raise e
    end.

(** *** The chunk bitrate *)

(** [sum(float(curr) - float(prev) for curr, prev in zip(times[1:], times))] *)
Fixpoint sum_deltas (acc : pyfloat) (pairs : list (value * value))
    : result pyfloat :=
  match pairs with
  | [] => Ok acc
  | (curr, prev) :: rest =>
      match py_float curr with
      | Raise e => Raise e
      | Ok c =>
          match py_float prev with
          | Raise e => Raise e
          | Ok p => sum_deltas (fadd acc (fsub c p)) rest
          end
      end
  end.

(** [BitrateStats._bitrate_for_frame_list]; a list of fewer than two
    frames falls through to the end of the function, which returns [None]. *)
Definition _bitrate_for_frame_list (frame_list : list frame) : result value :=
  if (1 <? List.length frame_list)%nat then
    let size := sum_sizes frame_list in
    let times := map Frame.pts frame_list in
    match sum_deltas (Fin 0) (combine (tl times) times) with
    | Raise e => Raise e
    | Ok sum_delta_time =>
        py_truediv (VNum (Fin (Qred (inject_Z (size * 8) / inject_Z 1000))))
                   (VNum sum_delta_time)
    end
  else Ok VNone.

(** [[_bitrate_for_frame_list(x) for x in aggregation_chunks if len(x) > 1]] *)
Fixpoint bitrates (aggregation_chunks : list (list frame))
    : result (list value) :=
  match aggregation_chunks with
  | [] => Ok []
  | x :: rest =>
      if (1 <? List.length x)%nat then
        match _bitrate_for_frame_list x with
        | Raise e => Raise e
        | Ok b =>
            match bitrates rest with
            | Ok bs => Ok (b :: bs)
            | Raise e => Raise e
            end
        end
      else bitrates rest
  end.

(** [BitrateStats._collect_chunks] *)
Definition _collect_chunks : M BitrateStats (list value) :=
  self <- get ;;
  if negb (Nat.eqb (List.length (_chunks self)) 0) then ret (_chunks self)
  else
    when (verbose self)
      (print_stderr "Collecting chunks for bitrate calculation") ;;;
    aggregation_chunks <-
      lift (aggregation_chunks_of (aggregation self) (chunk_size self)
              (frames self)) ;;
    chunks <- lift (bitrates aggregation_chunks) ;;
    modify (set_chunks chunks) ;;;
    ret chunks.

(** *** The statistics *)

(** [BitrateStats._calculate_duration] *)
Definition _calculate_duration : M BitrateStats value :=
  self <- get ;;
  total <- lift (py_sum (map Frame.duration (frames self))) ;;
  d <- lift (py_round total 2) ;;
  modify (set_duration d) ;;;
  ret d.

(** [BitrateStats._calculate_fps] *)
Definition _calculate_fps : M BitrateStats value :=
  self <- get ;;
  f <- lift (py_truediv (of_Z (Z.of_nat (List.length (frames self))))
                        (duration self)) ;;
  modify (set_fps f) ;;;
  ret f.

(** [BitrateStats._calculate_max_min_bitrate] *)
Definition _calculate_max_min_bitrate : M BitrateStats (value * value) :=
  chunks <- _collect_chunks ;;
  mx <- lift (py_max chunks) ;;
  modify (set_max_bitrate mx) ;;;
  chunks <- _collect_chunks ;;
  mn <- lift (py_min chunks) ;;
  modify (set_min_bitrate mn) ;;;
  ret (mx, mn).

(** [[round(b, self.rounding_factor) for b in chunks]] *)
Fixpoint round_all (nd : nat) (xs : list value) : result (list value) :=
  match xs with
  | [] => Ok []
  | b :: rest =>
      match py_round b nd with
      | Raise e => Raise e
      | Ok r =>
          match round_all nd rest with
          | Ok rs => Ok (r :: rs)
          | Raise e => Raise e
          end
      end
  end.

(** [BitrateStats._assemble_bitrate_statistics] *)
Definition _assemble_bitrate_statistics : M BitrateStats summary :=
  self <- get ;;
  avg_bitrate <-
    lift (py_truediv
            (VNum (Fin (Qred (inject_Z (sum_sizes (frames self) * 8)
                              / inject_Z 1000))))
            (duration self)) ;;
  chunks <- _collect_chunks ;;
  avg_bitrate_over_chunks <- lift (np_mean chunks) ;;
  max_bitrate_factor <- lift (py_truediv (max_bitrate self) avg_bitrate) ;;
  let nd := rounding_factor self in
  r_fps <- lift (py_round (fps self) nd) ;;
  r_avg <- lift (py_round avg_bitrate nd) ;;
  r_aoc <- lift (py_round avg_bitrate_over_chunks nd) ;;
  r_max <- lift (py_round (max_bitrate self) nd) ;;
  r_min <- lift (py_round (min_bitrate self) nd) ;;
  r_mbf <- lift (py_round max_bitrate_factor nd) ;;
  chunks <- _collect_chunks ;;
  r_chunks <- lift (round_all nd chunks) ;;
  r_dur <- lift (py_round (duration self) nd) ;;
  let r := {| s_input_file := input_file self;
              s_stream_type := stream_type self;
              s_avg_fps := r_fps;
              s_num_frames := Z.of_nat (List.length (frames self));
              s_avg_bitrate := r_avg;
              s_avg_bitrate_over_chunks := r_aoc;
              s_max_bitrate := r_max;
              s_min_bitrate := r_min;
              s_max_bitrate_factor := r_mbf;
              s_bitrate_per_chunk := r_chunks;
              s_aggregation := aggregation self;
              s_chunk_size := chunk_size self;
              s_duration := r_dur |} in
  modify (set_assembled avg_bitrate avg_bitrate_over_chunks
            max_bitrate_factor r) ;;;
  ret r.

(** [BitrateStats.calculate_statistics]; the method returns nothing, the
    record it leaves in [self.bitrate_stats] is handed back here. *)
Definition calculate_statistics (info : list packet_info)
    : M BitrateStats summary :=
  _calculate_frame_sizes info ;;;
  _calculate_duration ;;;
  _calculate_fps ;;;
  _calculate_max_min_bitrate ;;;
  _assemble_bitrate_statistics.

(** The steps of [calculate_statistics] after the packets have been
    normalized, on an object whose [frames] are already set. *)
Definition statistics_of_frames : M BitrateStats summary :=
  _calculate_duration ;;;
  _calculate_fps ;;;
  _calculate_max_min_bitrate ;;;
  _assemble_bitrate_statistics.

(** * The statistics over binary floating point

    The second embedding of the chunker, the chunk bitrate and the
    statistics: the same methods, with a Python [float] as the IEEE 754
    binary64 number it is.  [spec_float] is the Standard Library's
    specification of such numbers, and [SFadd], [SFsub], [SFdiv] and
    [SFltb] at precision 53 and exponent bound 1024 are the operations
    [+], [-], [/] and [<] of a float, rounding to the nearest number, ties
    to the even one.

    Sizes and lengths are ints and stay integers.  The other ints of these
    methods, the [0] an attribute or an accumulator starts from and a
    [chunk_size] given as an int, are read as the float of the same value,
    with which they compare and add alike. *)

Module B64.

Definition prec : Z := 53.
Definition emax : Z := 1024.

Definition float : Set := spec_float.

Definition zero : float := S754_zero false.
Definition nan : float := S754_nan.

Definition fadd : float -> float -> float := SFadd prec emax.
Definition fsub : float -> float -> float := SFsub prec emax.
Definition fdiv : float -> float -> float := SFdiv prec emax.

(** [a < b]; false when either number is [nan]. *)
Definition flt : float -> float -> bool := SFltb.

(** [x == 0], which both zeros satisfy. *)
Definition fis_zero (x : float) : bool :=
  match x with
  | S754_zero _ => true
  | _ => false
  end.

(** The rational a finite float stands for. *)
Definition Q_of (x : float) : Q :=
  match x with
  | S754_finite s m e =>
      match e with
      | Zneg p => Qmake (cond_Zopp s (Zpos m)) (2 ^ p)
      | _ => inject_Z (cond_Zopp s (Zpos m) * 2 ^ e)
      end
  | _ => 0%Q
  end.

(** The float nearest to a rational: the correctly rounded quotient of its
    numerator and its denominator. *)
Definition nearest (q : Q) : float :=
  match Qnum q with
  | Z0 => zero
  | Zpos n => fdiv (S754_finite false n 0) (S754_finite false (Qden q) 0)
  | Zneg n => fdiv (S754_finite true n 0) (S754_finite false (Qden q) 0)
  end.

(** [float(n)] for a length [n], far below the largest float. *)
Definition float_of_nat (n : nat) : float :=
  binary_normalize prec emax (Z.of_nat n) 0 false.

(** [a / b] for an int [a] and a positive int [b]: the float nearest to the
    quotient, unless that is out of range. *)
Definition int_truediv (a : Z) (b : positive) : result float :=
  match nearest (Qmake a b) with
  | S754_infinity _ => Raise OverflowError
  | q => Ok q
  end.

(** [round(x, nd)] for a float and [nd >= 0]: the float nearest to the
    decimal number of [nd] places that is nearest to the value [x] has,
    ties to the even last digit.  Zeros, infinities and [nan] are returned
    as they are, and a result that rounds to nothing keeps the sign. *)
Definition fround (x : float) (nd : nat) : float :=
  match x with
  | S754_finite s _ _ =>
      match round_half_even (Q_of x * inject_Z (pow10 nd)) with
      | Z0 => S754_zero s
      | k => nearest (Qmake k (Z.to_pos (pow10 nd)))
      end
  | _ => x
  end.

(** ** Values *)

Inductive value : Type :=
| VNum (x : float)
| VStr (s : string)
| VNone.

Definition py_lt (a b : value) : result bool :=
  match a, b with
  | VNum x, VNum y => Ok (flt x y)
  | VStr s, VStr t => Ok (String.ltb s t)
  | _, _ => Raise TypeError
  end.

Definition py_gt (a b : value) : result bool := py_lt b a.

(** [a / b]: a zero divisor raises, whatever the dividend; a quotient out
    of range is an infinity. *)
Definition py_truediv (a b : value) : result value :=
  match a, b with
  | VNum x, VNum y =>
      if fis_zero y then Raise ZeroDivisionError else Ok (VNum (fdiv x y))
  | _, _ => Raise TypeError
  end.

Definition py_round (a : value) (nd : nat) : result value :=
  match a with
  | VNum x => Ok (VNum (fround x nd))
  | _ => Raise TypeError
  end.

(** ** Data *)

Module Frame.
Record t : Type := mk {
  n : Z;
  frame_type : string;
  pts : value;
  size : Z;
  duration : value
}.
End Frame.

Definition frame : Type := Frame.t.

Record summary : Type := {
  s_input_file : string;
  s_stream_type : string;
  s_avg_fps : value;
  s_num_frames : Z;
  s_avg_bitrate : value;
  s_avg_bitrate_over_chunks : value;
  s_max_bitrate : value;
  s_min_bitrate : value;
  s_max_bitrate_factor : value;
  s_bitrate_per_chunk : list value;
  s_aggregation : string;
  s_chunk_size : value;
  s_duration : value
}.

Record BitrateStats : Type := {
  input_file : string;
  stream_type : string;
  aggregation : string;
  chunk_size : value;
  dry_run : bool;
  verbose : bool;
  duration : value;
  fps : value;
  max_bitrate : value;
  min_bitrate : value;
  moving_avg_bitrate : list value;
  frames : list frame;
  bitrate_stats : option summary;
  rounding_factor : nat;
  _chunks : list value;
  avg_bitrate : option value;
  avg_bitrate_over_chunks : option value;
  max_bitrate_factor : option value
}.

Definition set_duration (v : value) (o : BitrateStats) : BitrateStats :=
  {| input_file := input_file o; stream_type := stream_type o;
     aggregation := aggregation o; chunk_size := chunk_size o;
     dry_run := dry_run o; verbose := verbose o; duration := v;
     fps := fps o; max_bitrate := max_bitrate o; min_bitrate := min_bitrate o;
     moving_avg_bitrate := moving_avg_bitrate o; frames := frames o;
     bitrate_stats := bitrate_stats o; rounding_factor := rounding_factor o;
     _chunks := _chunks o; avg_bitrate := avg_bitrate o;
     avg_bitrate_over_chunks := avg_bitrate_over_chunks o;
     max_bitrate_factor := max_bitrate_factor o |}.

Definition set_fps (v : value) (o : BitrateStats) : BitrateStats :=
  {| input_file := input_file o; stream_type := stream_type o;
     aggregation := aggregation o; chunk_size := chunk_size o;
     dry_run := dry_run o; verbose := verbose o; duration := duration o;
     fps := v; max_bitrate := max_bitrate o; min_bitrate := min_bitrate o;
     moving_avg_bitrate := moving_avg_bitrate o; frames := frames o;
     bitrate_stats := bitrate_stats o; rounding_factor := rounding_factor o;
     _chunks := _chunks o; avg_bitrate := avg_bitrate o;
     avg_bitrate_over_chunks := avg_bitrate_over_chunks o;
     max_bitrate_factor := max_bitrate_factor o |}.

Definition set_max_bitrate (v : value) (o : BitrateStats) : BitrateStats :=
  {| input_file := input_file o; stream_type := stream_type o;
     aggregation := aggregation o; chunk_size := chunk_size o;
     dry_run := dry_run o; verbose := verbose o; duration := duration o;
     fps := fps o; max_bitrate := v; min_bitrate := min_bitrate o;
     moving_avg_bitrate := moving_avg_bitrate o; frames := frames o;
     bitrate_stats := bitrate_stats o; rounding_factor := rounding_factor o;
     _chunks := _chunks o; avg_bitrate := avg_bitrate o;
     avg_bitrate_over_chunks := avg_bitrate_over_chunks o;
     max_bitrate_factor := max_bitrate_factor o |}.

Definition set_min_bitrate (v : value) (o : BitrateStats) : BitrateStats :=
  {| input_file := input_file o; stream_type := stream_type o;
     aggregation := aggregation o; chunk_size := chunk_size o;
     dry_run := dry_run o; verbose := verbose o; duration := duration o;
     fps := fps o; max_bitrate := max_bitrate o; min_bitrate := v;
     moving_avg_bitrate := moving_avg_bitrate o; frames := frames o;
     bitrate_stats := bitrate_stats o; rounding_factor := rounding_factor o;
     _chunks := _chunks o; avg_bitrate := avg_bitrate o;
     avg_bitrate_over_chunks := avg_bitrate_over_chunks o;
     max_bitrate_factor := max_bitrate_factor o |}.

Definition set_chunks (v : list value) (o : BitrateStats) : BitrateStats :=
  {| input_file := input_file o; stream_type := stream_type o;
     aggregation := aggregation o; chunk_size := chunk_size o;
     dry_run := dry_run o; verbose := verbose o; duration := duration o;
     fps := fps o; max_bitrate := max_bitrate o; min_bitrate := min_bitrate o;
     moving_avg_bitrate := moving_avg_bitrate o; frames := frames o;
     bitrate_stats := bitrate_stats o; rounding_factor := rounding_factor o;
     _chunks := v; avg_bitrate := avg_bitrate o;
     avg_bitrate_over_chunks := avg_bitrate_over_chunks o;
     max_bitrate_factor := max_bitrate_factor o |}.

Definition set_assembled (ab aboc mbf : value) (r : summary)
    (o : BitrateStats) : BitrateStats :=
  {| input_file := input_file o; stream_type := stream_type o;
     aggregation := aggregation o; chunk_size := chunk_size o;
     dry_run := dry_run o; verbose := verbose o; duration := duration o;
     fps := fps o; max_bitrate := max_bitrate o; min_bitrate := min_bitrate o;
     moving_avg_bitrate := moving_avg_bitrate o; frames := frames o;
     bitrate_stats := Some r; rounding_factor := rounding_factor o;
     _chunks := _chunks o; avg_bitrate := Some ab;
     avg_bitrate_over_chunks := Some aboc;
     max_bitrate_factor := Some mbf |}.

(** ** What the interpreter and numpy decide

    Four operations are not fixed by the language: the float a str is read
    as, the float [sum] returns for a series of floats (CPython adds from
    the left up to 3.11 and carries a correction term from 3.12 on), the
    mean numpy computes and the way a numpy float is rounded.  The methods
    are defined, and their properties proved, for any choice of the
    four. *)

Class Builtins : Type := {
  (** [float(s)] for a str [s] *)
  float_of_str : string -> result float;
  (** [sum(xs)] for one float or more *)
  sum_of_floats : list float -> float;
  (** [np.mean(xs)] *)
  np_mean : list value -> result float;
  (** [round(x, nd)] for the float [np.mean] returns *)
  np_round : float -> nat -> float
}.

Section Methods.
Context {builtins : Builtins}.

(** [float(v)] *)
Definition py_float (v : value) : result float :=
  match v with
  | VNum x => Ok x
  | VStr s => float_of_str s
  | VNone => Raise TypeError
  end.

(** The floats of a list, if all its items are floats. *)
Fixpoint floats_of (xs : list value) : option (list float) :=
  match xs with
  | [] => Some []
  | VNum x :: rest =>
      match floats_of rest with
      | Some fs => Some (x :: fs)
      | None => None
      end
  | _ :: _ => None
  end.

(** [sum] over floats; of no item it is the int [0] it starts from. *)
Definition sum_floats (fs : list float) : float :=
  match fs with
  | [] => zero
  | _ => sum_of_floats fs
  end.

(** [sum(xs)]: a str or [None] cannot be added to a number. *)
Definition py_sum (xs : list value) : result value :=
  match floats_of xs with
  | Some fs => Ok (VNum (sum_floats fs))
  | None => Raise TypeError
  end.

(** [max(xs)]: the first item unless a later one compares greater. *)
Fixpoint py_max_from (best : value) (xs : list value) : result value :=
  match xs with
  | [] => Ok best
  | x :: rest =>
      match py_gt x best with
      | Ok b => py_max_from (if b then x else best) rest
      | Raise e => Raise e
      end
  end.

Definition py_max (xs : list value) : result value :=
  match xs with
  | [] => Raise ValueError
  | x :: rest => py_max_from x rest
  end.

Fixpoint py_min_from (best : value) (xs : list value) : result value :=
  match xs with
  | [] => Ok best
  | x :: rest =>
      match py_lt x best with
      | Ok b => py_min_from (if b then x else best) rest
      | Raise e => Raise e
      end
  end.

Definition py_min (xs : list value) : result value :=
  match xs with
  | [] => Raise ValueError
  | x :: rest => py_min_from x rest
  end.

Definition sum_sizes (fs : list frame) : Z :=
  fold_left (fun acc f => acc + Frame.size f) fs 0.

(** *** The chunker *)

(** The loop of the [gop] branch of [_collect_chunks]. *)
Fixpoint gop_loop (fs : list frame) (aggregation_chunks : list (list frame))
    (curr_list : list frame) : list (list frame) * list frame :=
  match fs with
  | [] => (aggregation_chunks, curr_list)
  | frame :: rest =>
      let curr_list :=
        if negb (String.eqb (Frame.frame_type frame) "I")
        then (curr_list ++ [frame])%list else curr_list in
      if String.eqb (Frame.frame_type frame) "I" then
        let aggregation_chunks :=
          match curr_list with
          | [] => aggregation_chunks
          | _ => (aggregation_chunks ++ [curr_list])%list
          end in
        gop_loop rest aggregation_chunks [frame]
      else gop_loop rest aggregation_chunks curr_list
  end.

(** The loop of the per-time branch of [_collect_chunks]; [agg_time] is
    added to with [+=], one float addition for each packet. *)
Fixpoint time_loop (chunk_size : value) (fs : list frame)
    (aggregation_chunks : list (list frame)) (curr_list : list frame)
    (agg_time : float) : result (list (list frame) * list frame) :=
  match fs with
  | [] => Ok (aggregation_chunks, curr_list)
  | frame :: rest =>
      match py_lt (VNum agg_time) chunk_size with
      | Raise e => Raise e
      | Ok true =>
          match py_float (Frame.duration frame) with
          | Raise e => Raise e
          | Ok d =>
              time_loop chunk_size rest aggregation_chunks
                (curr_list ++ [frame])%list (fadd agg_time d)
          end
      | Ok false =>
          let aggregation_chunks :=
            match curr_list with
            | [] => aggregation_chunks
            | _ => (aggregation_chunks ++ [curr_list])%list
            end in
          match py_float (Frame.duration frame) with
          | Raise e => Raise e
          | Ok d => time_loop chunk_size rest aggregation_chunks [frame] d
          end
      end
  end.

(** [aggregation_chunks] as [_collect_chunks] has it before the bitrates
    are computed. *)
Definition aggregation_chunks_of (aggregation : string) (chunk_size : value)
    (fs : list frame) : result (list (list frame)) :=
  if String.eqb aggregation "gop" then
    let '(aggregation_chunks, curr_list) := gop_loop fs [] [] in
    Ok (aggregation_chunks ++ [curr_list])%list
  else
    match time_loop chunk_size fs [] [] zero with
    | Ok (aggregation_chunks, curr_list) =>
        Ok (aggregation_chunks ++ [curr_list])%list
    | Raise e => Raise e
    end.

(** *** The chunk bitrate *)

(** [float(curr) - float(prev) for curr, prev in zip(times[1:], times)],
    item by item as [sum] asks for them. *)
Fixpoint deltas_of (pairs : list (value * value)) : result (list float) :=
  match pairs with
  | [] => Ok []
  | (curr, prev) :: rest =>
      match py_float curr with
      | Raise e => Raise e
      | Ok c =>
          match py_float prev with
          | Raise e => Raise e
          | Ok p =>
              match deltas_of rest with
              | Raise e => Raise e
              | Ok ds => Ok (fsub c p :: ds)
              end
          end
      end
  end.

(** [BitrateStats._bitrate_for_frame_list]; a list of fewer than two
    frames falls through to the end of the function, which returns [None]. *)
Definition _bitrate_for_frame_list (frame_list : list frame) : result value :=
  if (1 <? List.length frame_list)%nat then
    let size := sum_sizes frame_list in
    let times := map Frame.pts frame_list in
    match deltas_of (combine (tl times) times) with
    | Raise e => Raise e
    | Ok ds =>
        let sum_delta_time := sum_floats ds in
        match int_truediv (size * 8) 1000 with
        | Raise e => Raise e
        | Ok kbit => py_truediv (VNum kbit) (VNum sum_delta_time)
        end
    end
  else Ok VNone.

(** [[_bitrate_for_frame_list(x) for x in aggregation_chunks if len(x) > 1]] *)
Fixpoint bitrates (aggregation_chunks : list (list frame))
    : result (list value) :=
  match aggregation_chunks with
  | [] => Ok []
  | x :: rest =>
      if (1 <? List.length x)%nat then
        match _bitrate_for_frame_list x with
        | Raise e => Raise e
        | Ok b =>
            match bitrates rest with
            | Ok bs => Ok (b :: bs)
            | Raise e => Raise e
            end
        end
      else bitrates rest
  end.

(** [BitrateStats._collect_chunks] *)
Definition _collect_chunks : M BitrateStats (list value) :=
  self <- get ;;
  if negb (Nat.eqb (List.length (_chunks self)) 0) then ret (_chunks self)
  else
    when (verbose self)
      (print_stderr "Collecting chunks for bitrate calculation") ;;;
    aggregation_chunks <-
      lift (aggregation_chunks_of (aggregation self) (chunk_size self)
              (frames self)) ;;
    chunks <- lift (bitrates aggregation_chunks) ;;
    modify (set_chunks chunks) ;;;
    ret chunks.

(** The series [_collect_chunks] answers with: what is cached in [_chunks]
    when that is not empty, else the bitrates of the chunks of at least two
    packets. *)
Definition chunk_series (self : BitrateStats) : result (list value) :=
  if negb (Nat.eqb (List.length (_chunks self)) 0) then Ok (_chunks self)
  else
    match aggregation_chunks_of (aggregation self) (chunk_size self)
            (frames self) with
    | Ok ac => bitrates ac
    | Raise e => Raise e
    end.

(** *** The statistics *)

(** [BitrateStats._calculate_duration] *)
Definition _calculate_duration : M BitrateStats value :=
  self <- get ;;
  total <- lift (py_sum (map Frame.duration (frames self))) ;;
  d <- lift (py_round total 2) ;;
  modify (set_duration d) ;;;
  ret d.

(** [BitrateStats._calculate_fps] *)
Definition _calculate_fps : M BitrateStats value :=
  self <- get ;;
  f <- lift (py_truediv (VNum (float_of_nat (List.length (frames self))))
                        (duration self)) ;;
  modify (set_fps f) ;;;
  ret f.

(** [BitrateStats._calculate_max_min_bitrate] *)
Definition _calculate_max_min_bitrate : M BitrateStats (value * value) :=
  chunks <- _collect_chunks ;;
  mx <- lift (py_max chunks) ;;
  modify (set_max_bitrate mx) ;;;
  chunks <- _collect_chunks ;;
  mn <- lift (py_min chunks) ;;
  modify (set_min_bitrate mn) ;;;
  ret (mx, mn).

(** [[round(b, self.rounding_factor) for b in chunks]] *)
Fixpoint round_all (nd : nat) (xs : list value) : result (list value) :=
  match xs with
  | [] => Ok []
  | b :: rest =>
      match py_round b nd with
      | Raise e => Raise e
      | Ok r =>
          match round_all nd rest with
          | Ok rs => Ok (r :: rs)
          | Raise e => Raise e
          end
      end
  end.

(** [BitrateStats._assemble_bitrate_statistics] *)
Definition _assemble_bitrate_statistics : M BitrateStats summary :=
  self <- get ;;
  kbit <- lift (int_truediv (sum_sizes (frames self) * 8) 1000) ;;
  avg_bitrate <- lift (py_truediv (VNum kbit) (duration self)) ;;
  chunks <- _collect_chunks ;;
  avg_bitrate_over_chunks <- lift (np_mean chunks) ;;
  max_bitrate_factor <- lift (py_truediv (max_bitrate self) avg_bitrate) ;;
  let nd := rounding_factor self in
  r_fps <- lift (py_round (fps self) nd) ;;
  r_avg <- lift (py_round avg_bitrate nd) ;;
  let r_aoc := VNum (np_round avg_bitrate_over_chunks nd) in
  r_max <- lift (py_round (max_bitrate self) nd) ;;
  r_min <- lift (py_round (min_bitrate self) nd) ;;
  r_mbf <- lift (py_round max_bitrate_factor nd) ;;
  chunks <- _collect_chunks ;;
  r_chunks <- lift (round_all nd chunks) ;;
  r_dur <- lift (py_round (duration self) nd) ;;
  let r := {| s_input_file := input_file self;
              s_stream_type := stream_type self;
              s_avg_fps := r_fps;
              s_num_frames := Z.of_nat (List.length (frames self));
              s_avg_bitrate := r_avg;
              s_avg_bitrate_over_chunks := r_aoc;
              s_max_bitrate := r_max;
              s_min_bitrate := r_min;
              s_max_bitrate_factor := r_mbf;
              s_bitrate_per_chunk := r_chunks;
              s_aggregation := aggregation self;
              s_chunk_size := chunk_size self;
              s_duration := r_dur |} in
  modify (set_assembled avg_bitrate (VNum avg_bitrate_over_chunks)
            max_bitrate_factor r) ;;;
  ret r.

(** The steps of [calculate_statistics] after the packets have been
    normalized, on an object whose [frames] are already set. *)
Definition statistics_of_frames : M BitrateStats summary :=
  _calculate_duration ;;;
  _calculate_fps ;;;
  _calculate_max_min_bitrate ;;;
  _assemble_bitrate_statistics.

End Methods.

(** *** CPython up to 3.11 with numpy

    [sum] adds from the left; the mean is the sum in that order over the
    length, which is what numpy computes for fewer than eight numbers; a
    numpy float is rounded as a Python float is.  The str read as a float
    is a decimal numeral, or a spelling of [nan]. *)

Definition float_of_decimal (s : string) : result float :=
  match float_of_string s with
  | Ok (Fin q) => Ok (nearest q)
  | Ok NaN => Ok nan
  | Raise e => Raise e
  end.

Definition sum_from_left (fs : list float) : float := fold_left fadd fs zero.

Definition mean_in_order (xs : list value) : result float :=
  match floats_of xs with
  | Some [] => Ok nan
  | Some fs => Ok (fdiv (sum_from_left fs) (float_of_nat (List.length fs)))
  | None => Raise TypeError
  end.

Definition cpython : Builtins := {|
  float_of_str := float_of_decimal;
  sum_of_floats := sum_from_left;
  np_mean := mean_in_order;
  np_round := fround
|}.

(** The float a decimal numeral is read as: [dec n k] is [n / 10 ** k]. *)
Definition dec (n : Z) (k : nat) : float :=
  nearest (Qmake n (Z.to_pos (pow10 k))).

End B64.

(** * Properties *)

(** ** The chunker covers the input *)

Definition numeric_duration (f : frame) : Prop :=
  is_number (Frame.duration f) = true.

Lemma concat_snoc {A} (xss : list (list A)) (xs : list A) :
  List.concat (xss ++ [xs])%list = (List.concat xss ++ xs)%list.
Proof.
  rewrite concat_app. simpl. now rewrite app_nil_r.
Qed.

(** Closing the current chunk, when it is not empty, keeps what the closed
    chunks and the current one hold together. *)
Lemma concat_close {A} (xss : list (list A)) (xs : list A) :
  List.concat (match xs with [] => xss | _ => (xss ++ [xs])%list end)
  = (List.concat xss ++ xs)%list.
Proof.
  destruct xs as [|x xs].
  - now rewrite app_nil_r.
  - apply concat_snoc.
Qed.

Lemma gop_loop_concat (fs : list frame) :
  forall ac cl ac' cl',
    gop_loop fs ac cl = (ac', cl') ->
    (List.concat ac' ++ cl')%list = (List.concat ac ++ cl ++ fs)%list.
Proof.
  induction fs as [|f fs IH]; intros ac cl ac' cl' H; simpl in H.
  - inversion H; subst. now rewrite app_nil_r.
  - destruct (String.eqb (Frame.frame_type f) "I") eqn:E; simpl in H.
    + apply IH in H. rewrite H, concat_close. simpl.
      now rewrite <- app_assoc.
    + apply IH in H. rewrite H. now rewrite <- !app_assoc.
Qed.

Lemma time_loop_concat (cs : value) (fs : list frame) :
  forall ac cl agg ac' cl',
    time_loop cs fs ac cl agg = Ok (ac', cl') ->
    (List.concat ac' ++ cl')%list = (List.concat ac ++ cl ++ fs)%list.
Proof.
  induction fs as [|f fs IH]; intros ac cl agg ac' cl' H;
    cbn [time_loop] in H.
  - inversion H; subst. now rewrite app_nil_r.
  - destruct (py_lt (VNum agg) cs) as [[|]|e]; try discriminate;
      destruct (py_float (Frame.duration f)) as [d|e']; try discriminate;
      apply IH in H; rewrite H.
    + now rewrite <- !app_assoc.
    + rewrite concat_close. simpl. now rewrite <- app_assoc.
Qed.

(** With a number for [chunk_size] and a number for every duration, the
    per-time loop runs to its end. *)
Lemma time_loop_total (c : pyfloat) (fs : list frame) :
  Forall numeric_duration fs ->
  forall ac cl agg, exists ac' cl',
    time_loop (VNum c) fs ac cl agg = Ok (ac', cl').
Proof.
  induction 1 as [|f fs Hf _ IH]; intros ac cl agg; simpl.
  - now exists ac, cl.
  - unfold numeric_duration in Hf.
    destruct (Frame.duration f) as [d| |]; try discriminate. simpl.
    destruct (flt agg c); apply IH.
Qed.

(** Whatever the mode and the arguments, chunks that are returned hold the
    frames of the input, in order. *)
Lemma aggregation_chunks_concat (agg : string) (cs : value) (fs : list frame)
    (chunks : list (list frame)) :
  aggregation_chunks_of agg cs fs = Ok chunks -> List.concat chunks = fs.
Proof.
  unfold aggregation_chunks_of. intros H.
  destruct (String.eqb agg "gop").
  - destruct (gop_loop fs [] []) as [ac cl] eqn:E.
    inversion H; subst. rewrite concat_snoc.
    now rewrite (gop_loop_concat _ _ _ _ _ E).
  - destruct (time_loop cs fs [] [] (Fin 0)) as [[ac cl]|e] eqn:E;
      try discriminate.
    inversion H; subst. rewrite concat_snoc.
    now rewrite (time_loop_concat _ _ _ _ _ _ _ E).
Qed.

(** C1.  For a packet sequence whose durations are all numbers, in both
    aggregation modes ([time], with a number for the chunk size, and [gop]),
    the chunker builds its list of chunks and the concatenation of the
    chunks, in order and before chunks of fewer than two packets are left
    out, is the input sequence itself: nothing is duplicated, omitted or
    reordered. *)
Theorem chunks_partition_input (agg : string) (c : pyfloat) (fs : list frame) :
  agg = "time" \/ agg = "gop" ->
  Forall numeric_duration fs ->
  exists chunks,
    aggregation_chunks_of agg (VNum c) fs = Ok chunks /\ List.concat chunks = fs.
Proof.
  intros Hagg Hfs.
  assert (E : exists chunks, aggregation_chunks_of agg (VNum c) fs = Ok chunks).
  { unfold aggregation_chunks_of. destruct Hagg as [-> | ->]; simpl.
    - destruct (time_loop_total c fs Hfs [] [] (Fin 0)) as (ac & cl & H).
      rewrite H. eauto.
    - destruct (gop_loop fs [] []) as [ac cl]. eauto. }
  destruct E as [chunks E]. exists chunks. split; [exact E|].
  eapply aggregation_chunks_concat; eauto.
Qed.

Definition sample_frame (n : Z) (ty : string) (pts dur : Q) : frame :=
  Frame.mk n ty (VNum (Fin pts)) 1000 (VNum (Fin dur)).

Definition five_frames : list frame :=
  [ sample_frame 1 "I" 0 (3 # 10);
    sample_frame 2 "Non-I" (3 # 10) (3 # 10);
    sample_frame 3 "I" (6 # 10) (3 # 10);
    sample_frame 4 "Non-I" (9 # 10) (3 # 10);
    sample_frame 5 "Non-I" (12 # 10) (3 # 10) ].

Lemma chunks_partition_input_witness :
  exists chunks,
    aggregation_chunks_of "time" (VNum (Fin (1 # 2))) five_frames = Ok chunks
    /\ List.concat chunks = five_frames.
Proof.
  apply chunks_partition_input.
  - left. reflexivity.
  - repeat constructor.
Defined.

(** ** Comparing two numbers *)

Lemma flt_true (a b : Q) : flt (Fin a) (Fin b) = true -> (a < b)%Q.
Proof.
  simpl. destruct (Qcompare a b) eqn:E; try discriminate.
  intros _. now apply Qlt_alt.
Qed.

Lemma flt_false (a b : Q) : flt (Fin a) (Fin b) = false -> (b <= a)%Q.
Proof.
  simpl. destruct (Qcompare a b) eqn:E; try discriminate; intros _.
  - apply Qeq_alt in E. rewrite E. apply Qle_refl.
  - apply Qgt_alt in E. now apply Qlt_le_weak.
Qed.

(** ** The normalizer *)

(** An object as [BitrateStats(input_file)] leaves it, for the given
    aggregation and chunk size. *)
Definition new_stats (aggregation : string) (chunk_size : value)
    : BitrateStats :=
  {| input_file := "in.mp4";
     stream_type := "video";
     aggregation := aggregation;
     chunk_size := chunk_size;
     dry_run := false;
     verbose := false;
     duration := of_Z 0;
     fps := of_Z 0;
     max_bitrate := of_Z 0;
     min_bitrate := of_Z 0;
     moving_avg_bitrate := [];
     frames := [];
     bitrate_stats := None;
     rounding_factor := 3;
     _chunks := [];
     avg_bitrate := None;
     avg_bitrate_over_chunks := None;
     max_bitrate_factor := None |}.

Example new_stats_is_constructed :
  BitrateStats_init "in.mp4" "video" "time" (of_Z 1) false false tt []
  = (Ok (new_stats "time" (of_Z 1), tt), []).
Proof. reflexivity. Qed.

Definition packet (fl pts : string) (dur : option string) (sz : string)
    : packet_info :=
  {| flags := Some fl; pts_time := Some pts; duration_time := dur;
     size_text := Some sz |}.

(** Two packets, the first with a declared duration, the second without. *)
Definition declared_then_missing : list packet_info :=
  [ packet "K_" "0.000000" (Some "0.040000") "1000";
    packet "__" "0.040000" None "1200" ].

(** One packet and no declared duration. *)
Definition lone_undeclared : list packet_info :=
  [ packet "K_" "0.000000" None "1000" ].

(** C3.  The normalizer does not always leave a number in [duration].  A
    packet without a declared duration is given the first declared one as
    the text ffprobe wrote, not converted by [float] as a declared duration
    is; and a single packet without a declared duration is given [None] by
    the repair pass, whose loop never runs.  Both inputs are accepted by the
    normalizer, and [calculate_statistics] then stops in [sum] with a
    [TypeError]. *)
Theorem normalizer_leaves_non_numeric_duration :
  (exists fs self',
      _calculate_frame_sizes declared_then_missing
        (new_stats "time" (of_Z 1)) [] = (Ok (fs, self'), [])
      /\ map Frame.duration fs = [VNum (Fin (1 # 25)); VStr "0.040000"]
      /\ existsb (fun f => negb (is_number (Frame.duration f))) fs = true)
  /\ (exists fs self',
      _calculate_frame_sizes lone_undeclared
        (new_stats "time" (of_Z 1)) [] = (Ok (fs, self'), [])
      /\ map Frame.duration fs = [VNone])
  /\ fst (calculate_statistics declared_then_missing
            (new_stats "time" (of_Z 1)) []) = Raise TypeError
  /\ fst (calculate_statistics lone_undeclared
            (new_stats "time" (of_Z 1)) []) = Raise TypeError.
Proof.
  split; [|split; [|split]].
  - eexists. eexists. split; [lazy; reflexivity|]. split; reflexivity.
  - eexists. eexists. split; [lazy; reflexivity|reflexivity].
  - vm_compute. reflexivity.
  - vm_compute. reflexivity.
Qed.

(** ** The repair pass *)

Definition pts_warning : string :=
  "Non-monotonically increasing PTS, duration/bitrate may be invalid".

Definition num (q : Q) : value := VNum (Fin q).

(** The presentation times of [fs] are the numbers [ps]. *)
Definition pts_are (fs : list frame) (ps : list Q) : Prop :=
  map Frame.pts fs = map num ps.

(** Forward differences of consecutive presentation times. *)
Fixpoint deltas (ps : list Q) : list Q :=
  match ps with
  | p :: ((q :: _) as rest) => (q - p)%Q :: deltas rest
  | _ => []
  end.

(** The number of adjacent pairs whose time strictly decreases. *)
Fixpoint drops (ps : list Q) : nat :=
  match ps with
  | p :: ((q :: _) as rest) =>
      ((if Qlt_le_dec q p then 1 else 0) + drops rest)%nat
  | _ => O
  end.

Definition delta_values (ps : list Q) : list value :=
  map (fun d => num (Qred d)) (deltas ps).

(** What the repair pass leaves in [duration]: each forward difference,
    and for the last packet the difference before it ([None] when there is
    none). *)
Definition repaired_durations (ps : list Q) : list value :=
  (delta_values ps ++ [last (delta_values ps) VNone])%list.

(** [fs] with the durations [ds] written into its first packets. *)
Fixpoint assign (fs : list frame) (ds : list value) : list frame :=
  match fs, ds with
  | f :: fs', d :: ds' => Frame.set_duration f d :: assign fs' ds'
  | _, _ => fs
  end.

Lemma flt_iff_dec (q p : Q) :
  flt (Fin q) (Fin p) = if Qlt_le_dec q p then true else false.
Proof.
  destruct (Qlt_le_dec q p) as [H|H].
  - destruct (flt (Fin q) (Fin p)) eqn:E; [reflexivity|].
    apply flt_false in E. exfalso. exact (Qlt_not_le _ _ H E).
  - destruct (flt (Fin q) (Fin p)) eqn:E; [|reflexivity].
    apply flt_true in E. exfalso. exact (Qlt_not_le _ _ E H).
Qed.

Lemma last_delta_values (d : value) (ds : list value) (v : value) :
  last (d :: ds) v = last ds d.
Proof.
  revert d v. induction ds as [|e ds IH]; intros d v; [reflexivity|].
  change (last (d :: e :: ds) v) with (last (e :: ds) v).
  now rewrite (IH e v), (IH e d).
Qed.

Section Repair.

Context {S : Type}.

Lemma fix_durations_loop_step (curr next : frame) (rest : list frame)
    (lastd : value) :
  _fix_durations_loop (S := S) (curr :: next :: rest) lastd
  = (lt <- lift (py_lt (Frame.pts next) (Frame.pts curr)) ;;
     when lt (print_stderr pts_warning) ;;;
     d <- lift (py_sub (Frame.pts next) (Frame.pts curr)) ;;
     '(rest', l) <- _fix_durations_loop (next :: rest) d ;;
     ret (Frame.set_duration curr d :: rest', l)).
Proof. reflexivity. Qed.

Lemma fix_durations_loop_spec (fs : list frame) :
  forall (ps : list Q) (lastd : value) (s : S) (err : list string),
    pts_are fs ps ->
    _fix_durations_loop fs lastd s err
    = (Ok ((assign fs (delta_values ps), last (delta_values ps) lastd), s),
       (err ++ repeat pts_warning (drops ps))%list).
Proof.
  induction fs as [|f fs IH]; intros ps lastd s err Hp.
  - destruct ps as [|p ps]; [|discriminate].
    simpl. unfold ret. now rewrite app_nil_r.
  - destruct ps as [|p ps]; [discriminate|].
    injection Hp as Hf Hrest.
    destruct fs as [|g fs].
    + destruct ps as [|q ps]; [|discriminate].
      simpl. unfold ret. now rewrite app_nil_r.
    + destruct ps as [|q ps]; [discriminate|].
      assert (Hp' : pts_are (g :: fs) (q :: ps)) by exact Hrest.
      injection Hrest as Hg _.
      rewrite fix_durations_loop_step, Hf, Hg.
      unfold num. cbn [py_lt py_sub fsub]. rewrite flt_iff_dec.
      change (delta_values (p :: q :: ps))
        with (num (Qred (q - p)) :: delta_values (q :: ps)).
      rewrite last_delta_values.
      change (drops (p :: q :: ps))
        with ((if Qlt_le_dec q p then 1 else 0) + drops (q :: ps))%nat.
      unfold bind, lift, ret.
      destruct (Qlt_le_dec q p) as [Hlt|Hle]; unfold when, print_stderr.
      * rewrite (IH (q :: ps) (VNum (Fin (Qred (q - p)))) s
                   (err ++ [pts_warning])%list Hp').
        cbn [assign]. f_equal. now rewrite <- app_assoc.
      * unfold ret.
        rewrite (IH (q :: ps) (VNum (Fin (Qred (q - p)))) s err Hp').
        reflexivity.
Qed.

Lemma set_last_duration_assign (fs : list frame) :
  forall (ds : list value) (v : value),
    List.length fs = Datatypes.S (List.length ds) ->
    exists fs',
      set_last_duration (assign fs ds) v = Ok fs'
      /\ map Frame.duration fs' = (ds ++ [v])%list
      /\ map Frame.pts fs' = map Frame.pts fs
      /\ map Frame.size fs' = map Frame.size fs
      /\ map Frame.n fs' = map Frame.n fs
      /\ map Frame.frame_type fs' = map Frame.frame_type fs.
Proof.
  induction fs as [|f fs IH]; intros ds v Hlen; [discriminate|].
  destruct ds as [|d ds].
  - destruct fs; [|discriminate]. simpl. eexists. split; [reflexivity|].
    repeat split.
  - simpl in Hlen. injection Hlen as Hlen.
    destruct (IH ds v Hlen) as (fs' & E & H1 & H2 & H3 & H4 & H5).
    cbn [assign].
    assert (Hne : assign fs ds <> []).
    { intros C. rewrite C in E. discriminate. }
    exists (Frame.set_duration f d :: fs').
    split.
    + cbn [set_last_duration].
      destruct (assign fs ds) as [|a l] eqn:Ea; [congruence|].
      now rewrite E.
    + simpl. now rewrite H1, H2, H3, H4, H5.
Qed.

Lemma deltas_length (ps : list Q) :
  ps <> [] -> List.length ps = Datatypes.S (List.length (deltas ps)).
Proof.
  induction ps as [|p ps IH]; [congruence|]. intros _.
  destruct ps as [|q ps]; [reflexivity|].
  change (deltas (p :: q :: ps)) with ((q - p)%Q :: deltas (q :: ps)).
  simpl List.length at 1. simpl List.length at 2.
  f_equal. apply IH. discriminate.
Qed.

End Repair.

(** Two packets with the same presentation time, as the normalizer hands
    them to the repair pass. *)
Definition equal_pts_frames : list frame :=
  [ Frame.mk 1 "I" (num (1 # 10)) 1000 (VStr "NaN");
    Frame.mk 2 "Non-I" (num (1 # 10)) 1200 (VStr "NaN") ].

(** C4, as stated, fails: the second presentation time is not greater than
    the first (they are equal), the repair pass ends normally and assigns
    the zero delta, and nothing is written to [stderr]. *)
Lemma equal_pts_no_warning :
  (1 # 10 <= 1 # 10)%Q
  /\ (exists fs',
        fst (_fix_durations equal_pts_frames tt []) = Ok (fs', tt)
        /\ map Frame.duration fs' = [num 0; num 0])
  /\ ~ In pts_warning (snd (_fix_durations equal_pts_frames tt [])).
Proof.
  split; [discriminate|]. split.
  - eexists. split; [lazy; reflexivity|reflexivity].
  - vm_compute. intros [].
Qed.

(** C4, amended.  On a non-empty sequence of packets that all have a
    numeric presentation time, the repair pass raises no exception, writes
    one warning for each adjacent pair whose presentation time strictly
    decreases (next < current) and none for any other pair, equal times
    included, and assigns to each packet but the last the forward
    difference to the next one, whatever its sign; the last packet is given
    the difference before it. *)
Theorem fix_durations_warns_on_strict_decrease {S : Type} (fs : list frame)
    (ps : list Q) (s : S) (err : list string) :
  fs <> [] ->
  pts_are fs ps ->
  exists fs',
    _fix_durations fs s err
    = (Ok (fs', s), (err ++ repeat pts_warning (drops ps))%list)
    /\ map Frame.duration fs' = repaired_durations ps
    /\ map Frame.pts fs' = map Frame.pts fs.
Proof.
  intros Hne Hp.
  assert (Hlen : List.length fs
                 = Datatypes.S (List.length (delta_values ps))).
  { unfold delta_values. rewrite length_map.
    rewrite <- deltas_length.
    - unfold pts_are in Hp. apply (f_equal (@List.length _)) in Hp.
      now rewrite !length_map in Hp.
    - intros ->. destruct fs; [congruence|discriminate]. }
  destruct (set_last_duration_assign fs (delta_values ps)
              (last (delta_values ps) VNone) Hlen)
    as (fs' & E & Hd & Hpts & _).
  exists fs'. split; [|split; assumption].
  unfold _fix_durations, bind.
  rewrite (fix_durations_loop_spec fs ps VNone s err Hp).
  rewrite E. reflexivity.
Qed.

Definition falling_pts_frames : list frame :=
  [ Frame.mk 1 "I" (num (2 # 10)) 1000 (VStr "NaN");
    Frame.mk 2 "Non-I" (num (1 # 10)) 1200 (VStr "NaN");
    Frame.mk 3 "Non-I" (num (1 # 10)) 1100 (VStr "NaN") ].

Lemma fix_durations_warns_on_strict_decrease_witness :
  exists fs',
    _fix_durations falling_pts_frames tt []
    = (Ok (fs', tt),
       ([] ++ repeat pts_warning (drops [2 # 10; 1 # 10; 1 # 10]))%list)%Q
    /\ map Frame.duration fs' = repaired_durations [2 # 10; 1 # 10; 1 # 10]%Q
    /\ map Frame.pts fs' = map Frame.pts falling_pts_frames.
Proof.
  apply (fix_durations_warns_on_strict_decrease
           falling_pts_frames [2 # 10; 1 # 10; 1 # 10]%Q tt []).
  - discriminate.
  - reflexivity.
Defined.

(** ** The chunk bitrate *)



(** ** Running the methods *)

Ltac unfold_monad :=
  unfold bind, lift, ret, raise, get, modify, when, print_stderr, sys_exit.

Lemma bind_ok {S A B} (c : M S A) (k : A -> M S B) s err b s2 err2 :
  bind c k s err = (Ok (b, s2), err2) ->
  exists a s1 err1,
    c s err = (Ok (a, s1), err1) /\ k a s1 err1 = (Ok (b, s2), err2).
Proof.
  unfold bind. destruct (c s err) as [[[a s1]|e] err1]; [|discriminate].
  intros H. now exists a, s1, err1.
Qed.

Lemma bind_raise {S A B} (c : M S A) (k : A -> M S B) s err e :
  fst (c s err) = Raise e -> fst (bind c k s err) = Raise e.
Proof.
  unfold bind. destruct (c s err) as [[[a s1]|e'] err1]; simpl.
  - discriminate.
  - intros H. now inversion H.
Qed.

Lemma bind_then {S A B} (c : M S A) (k : A -> M S B) s err a s1 err1 :
  c s err = (Ok (a, s1), err1) -> bind c k s err = k a s1 err1.
Proof.
  unfold bind. now intros ->.
Qed.

(** The chunk bitrate series [_collect_chunks] answers with: what is cached
    in [_chunks] when that is not empty, else the bitrates of the chunks of
    at least two packets. *)
Definition chunk_series (self : BitrateStats) : result (list value) :=
  if negb (Nat.eqb (List.length (_chunks self)) 0) then Ok (_chunks self)
  else
    match aggregation_chunks_of (aggregation self) (chunk_size self)
            (frames self) with
    | Ok ac => bitrates ac
    | Raise e => Raise e
    end.

Lemma set_chunks_same (self : BitrateStats) :
  set_chunks (_chunks self) self = self.
Proof. now destruct self. Qed.

Lemma collect_chunks_ok (self : BitrateStats) err c s1 err1 :
  _collect_chunks self err = (Ok (c, s1), err1) ->
  chunk_series self = Ok c /\ s1 = set_chunks c self.
Proof.
  unfold _collect_chunks, chunk_series. unfold_monad.
  destruct (negb (Nat.eqb (List.length (_chunks self)) 0)).
  - intros H. inversion H; subst. now rewrite set_chunks_same.
  - destruct (verbose self);
      (destruct (aggregation_chunks_of _ _ _) as [ac|e]; [|discriminate]);
      (destruct (bitrates ac) as [bs|e]; [|discriminate]);
      intros H; inversion H; subst; now split.
Qed.

Lemma collect_chunks_raise (self : BitrateStats) err e :
  chunk_series self = Raise e -> fst (_collect_chunks self err) = Raise e.
Proof.
  unfold _collect_chunks, chunk_series. unfold_monad.
  destruct (negb (Nat.eqb (List.length (_chunks self)) 0)); [discriminate|].
  destruct (verbose self);
    (destruct (aggregation_chunks_of _ _ _) as [ac|e']; simpl;
     [destruct (bitrates ac) as [bs|e'']; simpl; congruence | congruence]).
Qed.

Lemma collect_chunks_run (self : BitrateStats) err c :
  chunk_series self = Ok c ->
  exists err1, _collect_chunks self err = (Ok (c, set_chunks c self), err1).
Proof.
  unfold _collect_chunks, chunk_series. unfold_monad.
  destruct (negb (Nat.eqb (List.length (_chunks self)) 0)).
  - intros H. inversion H; subst. rewrite set_chunks_same.
    eexists. reflexivity.
  - destruct (verbose self);
      (destruct (aggregation_chunks_of _ _ _) as [ac|e]; [|discriminate]);
      (destruct (bitrates ac) as [bs|e]; [|discriminate]);
      intros H; inversion H; subst; eexists; reflexivity.
Qed.

(** The series does not depend on the attributes the statistics write. *)
Lemma chunk_series_cached (self : BitrateStats) (c : list value) :
  _chunks self = c -> c <> [] -> chunk_series self = Ok c.
Proof.
  intros <- Hne. unfold chunk_series.
  destruct (_chunks self); [congruence|reflexivity].
Qed.

Lemma calculate_duration_ok (self : BitrateStats) err d s1 err1 :
  _calculate_duration self err = (Ok (d, s1), err1) ->
  exists total,
    py_sum (map Frame.duration (frames self)) = Ok total
    /\ py_round total 2 = Ok d
    /\ s1 = set_duration d self /\ err1 = err.
Proof.
  unfold _calculate_duration. unfold_monad.
  destruct (py_sum _) as [total|e] eqn:Es; [|discriminate].
  destruct (py_round total 2) as [d'|e] eqn:Er; [|discriminate].
  intros H. inversion H; subst. exists total. repeat split. exact Er.
Qed.

Lemma calculate_fps_ok (self : BitrateStats) err f s1 err1 :
  _calculate_fps self err = (Ok (f, s1), err1) ->
  py_truediv (of_Z (Z.of_nat (List.length (frames self)))) (duration self)
  = Ok f
  /\ s1 = set_fps f self /\ err1 = err.
Proof.
  unfold _calculate_fps. unfold_monad.
  destruct (py_truediv _ _) as [f'|e] eqn:Ed; [|discriminate].
  intros H. inversion H; subst. repeat split.
Qed.

Lemma py_max_nonempty (xs : list value) (v : value) :
  py_max xs = Ok v -> xs <> [].
Proof. destruct xs; [discriminate|discriminate]. Qed.

Lemma calculate_max_min_ok (self : BitrateStats) err mx mn s1 err1 :
  _calculate_max_min_bitrate self err = (Ok ((mx, mn), s1), err1) ->
  exists c,
    chunk_series self = Ok c /\ c <> []
    /\ py_max c = Ok mx /\ py_min c = Ok mn
    /\ s1 = set_min_bitrate mn (set_chunks c (set_max_bitrate mx
              (set_chunks c self))).
Proof.
  unfold _calculate_max_min_bitrate. intros H.
  apply bind_ok in H. destruct H as (c & sa & ea & Hc & H).
  apply collect_chunks_ok in Hc. destruct Hc as [Hc ->].
  apply bind_ok in H. destruct H as (mx' & sb & eb & Hmx & H).
  unfold lift in Hmx. destruct (py_max c) as [m|e] eqn:Emx; [|discriminate].
  unfold ret in Hmx. inversion Hmx; subst. clear Hmx.
  apply bind_ok in H. destruct H as ([] & sc & ec & Hmod & H).
  unfold modify in Hmod. inversion Hmod; subst. clear Hmod.
  apply bind_ok in H. destruct H as (c2 & sd & ed & Hc2 & H).
  apply collect_chunks_ok in Hc2. destruct Hc2 as [Hc2 ->].
  assert (Hne : c <> []) by (eapply py_max_nonempty; eauto).
  rewrite (chunk_series_cached _ c) in Hc2; [|reflexivity|exact Hne].
  inversion Hc2; subst c2. clear Hc2.
  apply bind_ok in H. destruct H as (mn' & se & ee & Hmn & H).
  unfold lift in Hmn. destruct (py_min c) as [m|e] eqn:Emn; [|discriminate].
  unfold ret in Hmn. inversion Hmn; subst. clear Hmn.
  apply bind_ok in H. destruct H as ([] & sf & ef & Hmod & H).
  unfold modify in Hmod. inversion Hmod; subst. clear Hmod.
  unfold ret in H. inversion H; subst.
  exists c. repeat split; auto.
Qed.

(** ** An empty chunk series *)

Lemma max_min_raises_on_empty (self : BitrateStats) err :
  chunk_series self = Ok [] ->
  fst (_calculate_max_min_bitrate self err) = Raise ValueError.
Proof.
  intros H. unfold _calculate_max_min_bitrate.
  destruct (collect_chunks_run self err [] H) as [err1 E].
  rewrite (bind_then _ _ _ _ _ _ _ E). reflexivity.
Qed.

(** C6.  When the chunk bitrate series, after chunks of fewer than two
    packets are left out, is empty, the statistics end with an exception
    and hand back no summary record, whatever the packets: the search for
    the maximum fails with [ValueError] on the empty series, unless an
    earlier step has already failed.  No zero is reported for the minimum
    or the maximum. *)
Theorem empty_chunk_series_fails (self s1 : BitrateStats)
    (err0 err1 err : list string) :
  _collect_chunks self err0 = (Ok ([], s1), err1) ->
  (exists e, fst (statistics_of_frames self err) = Raise e)
  /\ fst (_calculate_max_min_bitrate self err) = Raise ValueError.
Proof.
  intros H. apply collect_chunks_ok in H. destruct H as [Hc _].
  split; [|now apply max_min_raises_on_empty].
  unfold statistics_of_frames.
  destruct (_calculate_duration self err) as [[[d sa]|e] ea] eqn:Ed.
  2:{ exists e. apply bind_raise. now rewrite Ed. }
  rewrite (bind_then _ _ _ _ _ _ _ Ed).
  apply calculate_duration_ok in Ed.
  destruct Ed as (total & _ & _ & -> & ->).
  destruct (_calculate_fps (set_duration d self) err) as [[[f sb]|e] eb] eqn:Ef.
  2:{ exists e. apply bind_raise. now rewrite Ef. }
  rewrite (bind_then _ _ _ _ _ _ _ Ef).
  apply calculate_fps_ok in Ef. destruct Ef as (_ & -> & ->).
  exists ValueError. apply bind_raise.
  apply max_min_raises_on_empty. exact Hc.
Qed.

(** A single packet. *)
Definition single_packet_stats : BitrateStats :=
  set_frames [sample_frame 1 "I" 0 (1 # 25)] (new_stats "time" (of_Z 1)).

Lemma empty_chunk_series_fails_witness :
  (exists e, fst (statistics_of_frames single_packet_stats []) = Raise e)
  /\ fst (_calculate_max_min_bitrate single_packet_stats []) = Raise ValueError.
Proof.
  apply (empty_chunk_series_fails single_packet_stats
           (set_chunks [] single_packet_stats) [] [] []).
  reflexivity.
Defined.

(** ** Rounding *)






(** ** A run that succeeds *)

Lemma lift_ok {S A} (r : result A) (s : S) err a s1 err1 :
  lift r s err = (Ok (a, s1), err1) -> r = Ok a /\ s1 = s /\ err1 = err.
Proof.
  destruct r as [a'|e]; unfold lift, ret, raise; intros H; inversion H.
  now subst.
Qed.

Lemma get_ok {S} (s : S) err a s1 err1 :
  get s err = (Ok (a, s1), err1) -> a = s /\ s1 = s /\ err1 = err.
Proof. unfold get. intros H. inversion H. now subst. Qed.

Lemma modify_ok {S} (f : S -> S) (s : S) err u s1 err1 :
  modify f s err = (Ok (u, s1), err1) -> s1 = f s /\ err1 = err.
Proof. unfold modify. intros H. inversion H. now subst. Qed.

Ltac bind_step H x Hx :=
  apply bind_ok in H;
  let s := fresh "s" in
  let e := fresh "e" in
  destruct H as (x & s & e & Hx & H).

Ltac lift_step H x Hx :=
  bind_step H x Hx;
  apply lift_ok in Hx;
  let Hs := fresh in
  let He := fresh in
  destruct Hx as (Hx & Hs & He); subst.

Definition kbits (fs : list frame) : value :=
  VNum (Fin (Qred (inject_Z (sum_sizes fs * 8) / inject_Z 1000))).

(** ** The chunk size given to the constructor *)

Definition size_message : string := "Chunk size must be greater than 0".

Lemma negative_chunk_size_rejected (q : Q) (dry verbose_ : bool) :
  (q < 0)%Q ->
  BitrateStats_init "in.mp4" "video" "time" (num q) dry verbose_ tt []
  = (Raise (SystemExit 1), [size_message]).
Proof.
  intros H. unfold BitrateStats_init. unfold_monad. simpl existsb.
  simpl negb. simpl andb. cbv iota.
  assert (T : truthy (num q) = true).
  { simpl. destruct (Qeq_bool q 0) eqn:E; [|reflexivity].
    apply Qeq_bool_iff in E. rewrite E in H. discriminate. }
  rewrite T. unfold of_Z, num. cbn [py_lt].
  assert (L : flt (Fin q) (Fin (inject_Z 0)) = true).
  { rewrite flt_iff_dec. destruct (Qlt_le_dec q (inject_Z 0)) as [_|C];
      [reflexivity|]. exfalso. exact (Qlt_not_le _ _ H C). }
  rewrite L. reflexivity.
Qed.

Lemma positive_chunk_size_accepted (q : Q) (dry verbose_ : bool) :
  (0 < q)%Q ->
  exists self,
    BitrateStats_init "in.mp4" "video" "time" (num q) dry verbose_ tt []
    = (Ok (self, tt), [])
    /\ chunk_size self = num q.
Proof.
  intros H. unfold BitrateStats_init. unfold_monad. simpl existsb.
  simpl negb. simpl andb. cbv iota.
  assert (T : truthy (num q) = true).
  { simpl. destruct (Qeq_bool q 0) eqn:E; [|reflexivity].
    apply Qeq_bool_iff in E. rewrite E in H. discriminate. }
  rewrite T. unfold of_Z, num. cbn [py_lt].
  assert (L : flt (Fin q) (Fin (inject_Z 0)) = false).
  { rewrite flt_iff_dec. destruct (Qlt_le_dec q (inject_Z 0)) as [C|_];
      [|reflexivity]. exfalso.
    exact (Qlt_irrefl _ (Qlt_trans _ _ _ H C)). }
  rewrite L. eexists. split; reflexivity.
Qed.

(** C9.  A chunk size of zero is not rejected: the test [chunk_size and
    chunk_size < 0] lets it through, though the message of that very test
    says the chunk size must be greater than 0.  The constructor returns
    the object, nothing is written to [stderr], and the statistics then run
    with a zero window, in which every chunk is a single packet. *)
Theorem zero_chunk_size_accepted :
  (exists self,
      BitrateStats_init "in.mp4" "video" "time" (of_Z 0) false false tt []
      = (Ok (self, tt), [])
      /\ chunk_size self = of_Z 0)
  /\ aggregation_chunks_of "time" (of_Z 0) five_frames
     = Ok (map (fun f => [f]) five_frames)
  /\ fst (statistics_of_frames
            (set_frames five_frames (new_stats "time" (of_Z 0))) [])
     = Raise ValueError.
Proof.
  split; [|split].
  - eexists. split; reflexivity.
  - vm_compute. reflexivity.
  - vm_compute. reflexivity.
Qed.

(** ** A sparse stream *)

(** Two packets ten seconds apart that declare half a second each. *)
Definition sparse_stats : BitrateStats :=
  set_frames [ sample_frame 1 "I" 0 (1 # 2);
               sample_frame 2 "Non-I" 10 (1 # 2) ]
    (new_stats "time" (of_Z 1)).

(** * Further properties of the code *)

(** ** The constructor *)

(** The configurations the constructor lets through, for a finite chunk
    size. *)
Definition accepted_config (st ag : string) (q : Q) : Prop :=
  (st = "audio" \/ st = "video")
  /\ (ag = "time" \/ ag = "gop")
  /\ ~ (ag = "gop" /\ st = "audio")
  /\ (0 <= q)%Q.

Lemma chunk_size_test {S : Type} (q : Q) :
  (if truthy (num q) then lift (py_lt (num q) (of_Z 0)) else ret false)
  = ret (S := S) (if Qlt_le_dec q 0 then true else false).
Proof.
  unfold num, of_Z. cbn [truthy py_lt fis_zero].
  destruct (Qeq_bool q 0) eqn:E; cbn [negb].
  - apply Qeq_bool_iff in E.
    destruct (Qlt_le_dec q 0) as [C|_]; [|reflexivity].
    rewrite E in C. discriminate.
  - cbn [lift]. now rewrite flt_iff_dec.
Qed.

(** The constructor either returns the object, with the arguments stored,
    nothing collected yet and nothing written, or it writes one line to
    [stderr] and exits with status 1; it returns the object exactly for a
    stream type of audio or video, an aggregation of time or gop that is
    not gop on audio, and a chunk size that is not negative. *)
Theorem init_accepts_or_exits {S : Type} (f st ag : string) (q : Q)
    (dry vb : bool) (s : S) (err : list string) :
  (accepted_config st ag q
   /\ exists self,
        BitrateStats_init f st ag (num q) dry vb s err = (Ok (self, s), err)
        /\ input_file self = f /\ stream_type self = st
        /\ aggregation self = ag /\ chunk_size self = num q
        /\ dry_run self = dry /\ verbose self = vb
        /\ frames self = [] /\ _chunks self = []
        /\ rounding_factor self = 3%nat)
  \/ (~ accepted_config st ag q
      /\ exists msg,
           BitrateStats_init f st ag (num q) dry vb s err
           = (Raise (SystemExit 1), (err ++ [msg])%list)).
Proof.
  unfold BitrateStats_init, accepted_config.
  rewrite chunk_size_test. unfold_monad. cbn [existsb].
  destruct (String.eqb_spec st "audio") as [Ha|Ha];
    destruct (String.eqb_spec st "video") as [Hv|Hv];
    destruct (String.eqb_spec ag "time") as [Ht|Ht];
    destruct (String.eqb_spec ag "gop") as [Hg|Hg];
    destruct (Qlt_le_dec q 0) as [Hq|Hq];
    cbn [orb negb andb];
    try (right; split;
         [ intros (Hst & Hag & Hga & Hpos);
           try (exact (Qlt_not_le _ _ Hq Hpos));
           try (apply Hga; now split);
           try (destruct Hst; congruence);
           try (destruct Hag; congruence)
         | eexists; reflexivity ]);
    try (left; split;
         [ repeat split; auto; intros [? ?]; congruence
         | eexists; repeat split ]).
Qed.

(** [None] for the chunk size passes the constructor as well, its test
    being skipped for a falsy value; the per-time loop then fails on the
    first packet, comparing a number with [None]. *)
Theorem none_chunk_size_fails_in_time_loop {S : Type} (f : string)
    (dry vb : bool) (s : S) (err : list string) (fs : list frame) :
  fs <> [] ->
  (exists self,
      BitrateStats_init f "video" "time" VNone dry vb s err
      = (Ok (self, s), err)
      /\ chunk_size self = VNone)
  /\ aggregation_chunks_of "time" VNone fs = Raise TypeError
  /\ exists chunks, aggregation_chunks_of "gop" VNone fs = Ok chunks.
Proof.
  intros Hne. split; [|split].
  - eexists. split; reflexivity.
  - destruct fs as [|x fs]; [congruence|]. reflexivity.
  - unfold aggregation_chunks_of. simpl String.eqb. cbv iota.
    destruct (gop_loop fs [] []) as [ac cl]. eexists. reflexivity.
Qed.

Lemma none_chunk_size_fails_in_time_loop_witness :
  (exists self,
      BitrateStats_init "in.mp4" "video" "time" VNone false false tt []
      = (Ok (self, tt), [])
      /\ chunk_size self = VNone)
  /\ aggregation_chunks_of "time" VNone five_frames = Raise TypeError
  /\ exists chunks, aggregation_chunks_of "gop" VNone five_frames = Ok chunks.
Proof.
  apply (none_chunk_size_fails_in_time_loop "in.mp4" false false tt []
           five_frames).
  discriminate.
Defined.

(** ** The repair pass and the other keys of a packet *)

(** Two lists of packets that differ at most in their durations. *)
Definition same_packets (fs' fs : list frame) : Prop :=
  map Frame.n fs' = map Frame.n fs
  /\ map Frame.frame_type fs' = map Frame.frame_type fs
  /\ map Frame.pts fs' = map Frame.pts fs
  /\ map Frame.size fs' = map Frame.size fs.

Lemma same_packets_refl (fs : list frame) : same_packets fs fs.
Proof. repeat split. Qed.

Lemma same_packets_cons (f : frame) (d : value) (fs' fs : list frame) :
  same_packets fs' fs -> same_packets (Frame.set_duration f d :: fs') (f :: fs).
Proof.
  intros (H1 & H2 & H3 & H4). repeat split; simpl; congruence.
Qed.

Lemma same_packets_length (fs' fs : list frame) :
  same_packets fs' fs -> List.length fs' = List.length fs.
Proof.
  intros (H & _). apply (f_equal (@List.length _)) in H.
  now rewrite !length_map in H.
Qed.

Lemma when_ok {S} (b : bool) (c : M S unit) (msg : string) s err u s1 err1 :
  c = print_stderr msg ->
  when b c s err = (Ok (u, s1), err1) -> s1 = s.
Proof.
  intros -> H. destruct b; unfold when, print_stderr, ret in H;
    now inversion H.
Qed.

Lemma fix_durations_loop_keeps {S : Type} (fs : list frame) :
  forall (l : value) (s : S) err fs' l' s1 err1,
    _fix_durations_loop fs l s err = (Ok ((fs', l'), s1), err1) ->
    s1 = s /\ same_packets fs' fs.
Proof.
  induction fs as [|f fs IH]; intros l s err fs' l' s1 err1 H.
  - simpl in H. unfold ret in H. inversion H; subst.
    split; [reflexivity|apply same_packets_refl].
  - destruct fs as [|g fs].
    + simpl in H. unfold ret in H. inversion H; subst.
      split; [reflexivity|apply same_packets_refl].
    + rewrite fix_durations_loop_step in H.
      lift_step H blt Hblt.
      bind_step H u Hw. apply (when_ok _ _ pts_warning) in Hw;
        [|reflexivity]. subst.
      lift_step H d Hd.
      bind_step H x Hx. destruct x as [rest' l2].
      apply IH in Hx. destruct Hx as (-> & Hsame).
      unfold ret in H. inversion H; subst.
      split; [reflexivity|]. now apply same_packets_cons.
Qed.

Lemma set_last_duration_step (f g : frame) (fs : list frame) (v : value) :
  set_last_duration (f :: g :: fs) v
  = match set_last_duration (g :: fs) v with
    | Ok rest' => Ok (f :: rest')
    | Raise e => Raise e
    end.
Proof. reflexivity. Qed.

Lemma set_last_duration_keeps (fs : list frame) :
  forall (v : value) (fs' : list frame),
    set_last_duration fs v = Ok fs' -> same_packets fs' fs.
Proof.
  induction fs as [|f fs IH]; intros v fs' H; [discriminate|].
  destruct fs as [|g fs].
  - simpl in H. inversion H; subst.
    apply same_packets_cons, same_packets_refl.
  - rewrite set_last_duration_step in H.
    destruct (set_last_duration (g :: fs) v) as [rest'|e] eqn:E;
      [|discriminate].
    inversion H; subst. destruct (IH v rest' E) as (H1 & H2 & H3 & H4).
    repeat split; cbn [map]; f_equal; assumption.
Qed.

Lemma fix_durations_same {S : Type} (fs fs' : list frame)
    (s s1 : S) (err err1 : list string) :
  _fix_durations fs s err = (Ok (fs', s1), err1) ->
  fs <> [] /\ s1 = s /\ same_packets fs' fs.
Proof.
  unfold _fix_durations. intros H.
  bind_step H x Hx. destruct x as [fs1 l1].
  apply fix_durations_loop_keeps in Hx. destruct Hx as (-> & Hsame1).
  apply lift_ok in H. destruct H as (H & -> & ->).
  pose proof (set_last_duration_keeps _ _ _ H) as Hsame2.
  destruct Hsame1 as (A1 & A2 & A3 & A4).
  destruct Hsame2 as (B1 & B2 & B3 & B4).
  split.
  - intros ->. destruct fs1; [discriminate H|discriminate A1].
  - split; [reflexivity|]. repeat split; congruence.
Qed.

(** A repair pass that ends normally was given at least one packet and
    returns the same packets, in the same order, with only their durations
    rewritten; it leaves the state alone. *)
Theorem fix_durations_keeps_packets {S : Type} (fs fs' : list frame)
    (s s1 : S) (err err1 : list string) :
  _fix_durations fs s err = (Ok (fs', s1), err1) ->
  fs <> [] /\ s1 = s
  /\ List.length fs' = List.length fs
  /\ map Frame.n fs' = map Frame.n fs
  /\ map Frame.frame_type fs' = map Frame.frame_type fs
  /\ map Frame.pts fs' = map Frame.pts fs
  /\ map Frame.size fs' = map Frame.size fs.
Proof.
  intros H. apply fix_durations_same in H.
  destruct H as (Hne & Hs & Hsame).
  pose proof (same_packets_length _ _ Hsame) as Hlen.
  destruct Hsame as (A1 & A2 & A3 & A4).
  repeat split; assumption.
Qed.

Lemma fix_durations_keeps_packets_witness :
  exists fs',
    _fix_durations falling_pts_frames tt [] = (Ok (fs', tt), [pts_warning])
    /\ falling_pts_frames <> [] /\ tt = tt
    /\ List.length fs' = List.length falling_pts_frames
    /\ map Frame.n fs' = map Frame.n falling_pts_frames
    /\ map Frame.frame_type fs' = map Frame.frame_type falling_pts_frames
    /\ map Frame.pts fs' = map Frame.pts falling_pts_frames
    /\ map Frame.size fs' = map Frame.size falling_pts_frames.
Proof.
  eexists. split.
  - lazy. reflexivity.
  - eapply (fix_durations_keeps_packets falling_pts_frames _ tt tt []).
    lazy. reflexivity.
Defined.

(** The presentation time of a packet is a number or a str. *)
Definition pts_number (f : frame) : Prop := exists x, Frame.pts f = VNum x.
Definition pts_text (f : frame) : Prop := exists t, Frame.pts f = VStr t.

Lemma fix_durations_loop_missing_pts {S : Type} (fs : list frame) :
  forall (l : value) (s : S) err,
    (2 <= List.length fs)%nat ->
    Forall (fun f => pts_number f \/ pts_text f) fs ->
    Exists pts_text fs ->
    fst (_fix_durations_loop fs l s err) = Raise TypeError.
Proof.
  induction fs as [|f fs IH]; intros l s err Hlen Hall Hex;
    [simpl in Hlen; lia|].
  destruct fs as [|g fs]; [simpl in Hlen; lia|].
  rewrite fix_durations_loop_step.
  inversion Hall as [|? ? Hf Hall']; subst.
  inversion Hall' as [|? ? Hg Hall'']; subst.
  destruct Hf as [[x Hf]|[t Hf]]; destruct Hg as [[y Hg]|[u Hg]];
    rewrite Hf, Hg; try reflexivity.
  - (* both numbers: the text is further on *)
    cbn [py_lt py_sub lift].
    assert (Hex' : Exists pts_text (g :: fs)).
    { inversion Hex as [? ? [t Ht]|]; subst; [congruence|assumption]. }
    assert (Hlen' : (2 <= List.length (g :: fs))%nat).
    { destruct fs as [|h fs]; [|simpl; lia].
      inversion Hex' as [? ? [t Ht]|? ? Hn]; subst; [congruence|inversion Hn]. }
    unfold bind at 1. unfold ret at 1.
    assert (W : forall e0, exists e1,
               when (S := S) (flt y x) (print_stderr pts_warning) s e0
               = (Ok (tt, s), e1)).
    { intros e0. destruct (flt y x); eexists; reflexivity. }
    destruct (W err) as [e1 W1].
    rewrite (bind_then _ _ _ _ _ _ _ W1).
    unfold bind at 1. unfold ret at 1.
    apply bind_raise. apply IH; assumption.
  - (* both texts: the comparison is made, the difference fails *)
    cbn [py_lt py_sub lift]. unfold bind at 1. unfold ret at 1.
    destruct (String.ltb u t); unfold_monad; reflexivity.
Qed.

(** With two packets or more, a repair pass that meets a packet without
    a presentation time (the str ["NaN"] in its place) ends with a
    [TypeError]: in the comparison of a number with a str, or in the
    difference of two strs. *)
Theorem fix_durations_missing_pts_raises {S : Type} (fs : list frame)
    (s : S) (err : list string) :
  (2 <= List.length fs)%nat ->
  Forall (fun f => pts_number f \/ pts_text f) fs ->
  Exists pts_text fs ->
  fst (_fix_durations fs s err) = Raise TypeError.
Proof.
  intros Hlen Hall Hex. unfold _fix_durations.
  apply bind_raise. now apply fix_durations_loop_missing_pts.
Qed.

Definition gap_pts_frames : list frame :=
  [ Frame.mk 1 "I" (num 0) 1000 (VStr "NaN");
    Frame.mk 2 "Non-I" (num (1 # 25)) 1200 (VStr "NaN");
    Frame.mk 3 "Non-I" (VStr "NaN") 1100 (VStr "NaN") ].

Lemma fix_durations_missing_pts_raises_witness :
  fst (_fix_durations gap_pts_frames tt []) = Raise TypeError.
Proof.
  apply (fix_durations_missing_pts_raises gap_pts_frames tt []).
  - simpl. lia.
  - apply Forall_cons; [left; eexists; reflexivity|].
    apply Forall_cons; [left; eexists; reflexivity|].
    apply Forall_cons; [right; eexists; reflexivity|].
    apply Forall_nil.
  - apply Exists_cons_tl, Exists_cons_tl, Exists_cons_hd.
    eexists. reflexivity.
Defined.

(** ** The normalizer, packet by packet *)

(** What the loop of [_calculate_frame_sizes] makes of one entry, given
    the default duration [dd] and the index [idx]. *)
Definition frame_of (dd : value) (idx : Z) (p : packet_info) (f : frame)
    : Prop :=
  Frame.n f = idx
  /\ (exists fl, flags p = Some fl
        /\ Frame.frame_type f = if String.eqb fl "K_" then "I" else "Non-I")
  /\ match pts_time p with
     | Some t => exists x, float_of_string t = Ok x /\ Frame.pts f = VNum x
     | None => Frame.pts f = VStr "NaN"
     end
  /\ match duration_time p with
     | Some t =>
         exists x, float_of_string t = Ok x /\ Frame.duration f = VNum x
     | None => Frame.duration f = dd
     end
  /\ exists st, size_text p = Some st /\ int_of_string st = Ok (Frame.size f).

Lemma frames_of_info_cons (p : packet_info) (rest : list packet_info)
    (dd : value) (idx : Z) (fs : list frame) :
  frames_of_info (p :: rest) dd idx = Ok fs ->
  exists f tl,
    fs = f :: tl /\ frame_of dd idx p f
    /\ frames_of_info rest dd (idx + 1) = Ok tl.
Proof.
  cbn [frames_of_info]. unfold subscript, frame_of.
  destruct (flags p) as [fl|]; [|discriminate].
  destruct (pts_time p) as [t|].
  - destruct (float_of_string t) as [x|] eqn:Ex; [|discriminate].
    destruct (duration_time p) as [u|].
    + destruct (float_of_string u) as [y|] eqn:Ey; [|discriminate].
      destruct (size_text p) as [st|]; [|discriminate].
      destruct (int_of_string st) as [sz|] eqn:Es; [|discriminate].
      destruct (frames_of_info rest dd (idx + 1)) as [tl|]; [|discriminate].
      intros H. inversion H; subst. eexists. eexists.
      split; [reflexivity|]. split; [|reflexivity]. cbn.
      repeat split; eauto.
    + destruct (size_text p) as [st|]; [|discriminate].
      destruct (int_of_string st) as [sz|] eqn:Es; [|discriminate].
      destruct (frames_of_info rest dd (idx + 1)) as [tl|]; [|discriminate].
      intros H. inversion H; subst. eexists. eexists.
      split; [reflexivity|]. split; [|reflexivity]. cbn.
      repeat split; eauto.
  - destruct (duration_time p) as [u|].
    + destruct (float_of_string u) as [y|] eqn:Ey; [|discriminate].
      destruct (size_text p) as [st|]; [|discriminate].
      destruct (int_of_string st) as [sz|] eqn:Es; [|discriminate].
      destruct (frames_of_info rest dd (idx + 1)) as [tl|]; [|discriminate].
      intros H. inversion H; subst. eexists. eexists.
      split; [reflexivity|]. split; [|reflexivity]. cbn.
      repeat split; eauto.
    + destruct (size_text p) as [st|]; [|discriminate].
      destruct (int_of_string st) as [sz|] eqn:Es; [|discriminate].
      destruct (frames_of_info rest dd (idx + 1)) as [tl|]; [|discriminate].
      intros H. inversion H; subst. eexists. eexists.
      split; [reflexivity|]. split; [|reflexivity]. cbn.
      repeat split; eauto.
Qed.

(** The frames built from [info], entry [k] against the index
    [idx + k]. *)
Inductive frames_from (dd : value) : Z -> list packet_info -> list frame
    -> Prop :=
| frames_from_nil : forall idx, frames_from dd idx [] []
| frames_from_cons : forall idx p f info fs,
    frame_of dd idx p f ->
    frames_from dd (idx + 1) info fs ->
    frames_from dd idx (p :: info) (f :: fs).

Lemma frames_of_info_from (info : list packet_info) :
  forall (dd : value) (idx : Z) (fs : list frame),
    frames_of_info info dd idx = Ok fs -> frames_from dd idx info fs.
Proof.
  induction info as [|p info IH]; intros dd idx fs H.
  - simpl in H. inversion H. constructor.
  - apply frames_of_info_cons in H.
    destruct H as (f & tl & -> & Hf & Hrest).
    constructor; [exact Hf|]. now apply IH.
Qed.

Lemma frames_from_length dd idx info fs :
  frames_from dd idx info fs -> List.length fs = List.length info.
Proof. induction 1; simpl; congruence. Qed.

Lemma frames_from_indices dd idx info fs :
  frames_from dd idx info fs ->
  forall k : nat,
    idx = Z.of_nat k ->
    map Frame.n fs = map Z.of_nat (seq k (List.length info)).
Proof.
  induction 1 as [|idx p f info fs Hf _ IH]; intros k Hk; [reflexivity|].
  cbn [map List.length seq]. destruct Hf as (Hn & _). rewrite Hn, Hk.
  f_equal. apply IH. lia.
Qed.

Lemma frames_from_types dd idx info fs :
  frames_from dd idx info fs ->
  Forall (fun f => Frame.frame_type f = "I" \/ Frame.frame_type f = "Non-I")
    fs.
Proof.
  induction 1 as [|idx p f info fs Hf _ IH]; constructor; [|exact IH].
  destruct Hf as (_ & (fl & _ & Ht) & _).
  destruct (String.eqb fl "K_"); [now left|now right].
Qed.

(** What a normal end of [_calculate_frame_sizes] tells about its steps. *)
Lemma calculate_frame_sizes_ok (info : list packet_info)
    (self : BitrateStats) err fs s1 err1 :
  _calculate_frame_sizes info self err = (Ok (fs, s1), err1) ->
  dry_run self = false
  /\ s1 = set_frames fs self
  /\ exists fs0,
       frames_of_info info (first_duration_time info) 1 = Ok fs0
       /\ if eq_str (first_duration_time info) "NaN"
          then exists e0 e1, _fix_durations fs0 self e0 = (Ok (fs, self), e1)
          else fs = fs0.
Proof.
  unfold _calculate_frame_sizes. intros H.
  bind_step H self0 Hget. apply get_ok in Hget.
  destruct Hget as (-> & -> & ->).
  bind_step H u Hv.
  apply (when_ok _ _ ("Calculating frame size from " ++ input_file self))
    in Hv; [|reflexivity]. subst.
  bind_step H u' Hd.
  destruct (dry_run self) eqn:Edry.
  { unfold when in Hd. unfold_monad. discriminate Hd. }
  unfold when, ret in Hd. inversion Hd; subst. clear Hd.
  cbv zeta in H.
  lift_step H fs0 Hfs0.
  bind_step H fs1 Hfix.
  bind_step H u'' Hmod. apply modify_ok in Hmod. destruct Hmod as (-> & ->).
  unfold ret in H. inversion H; subst. clear H.
  split; [reflexivity|].
  destruct (eq_str (first_duration_time info) "NaN") eqn:Eq.
  - pose proof Hfix as Hfix'.
    apply fix_durations_same in Hfix'.
    destruct Hfix' as (_ & -> & _).
    split; [reflexivity|]. exists fs0. split; [exact Hfs0|]. eauto.
  - unfold ret in Hfix. inversion Hfix; subst.
    split; [reflexivity|]. exists fs. split; [exact Hfs0|reflexivity].
Qed.

Lemma first_duration_time_text (info : list packet_info) :
  exists d, first_duration_time info = VStr d.
Proof.
  induction info as [|p info IH]; simpl; [eauto|].
  destruct (duration_time p); eauto.
Qed.

(** When [_calculate_frame_sizes] ends normally, there was at least one
    packet, the frames are as many as the packets and numbered from 1 in
    the order of the input, each is of type ["I"] or ["Non-I"], and they
    are what [self.frames] holds afterwards. *)
Theorem normalizer_numbers_packets (info : list packet_info)
    (self s1 : BitrateStats) (err err1 : list string) (fs : list frame) :
  _calculate_frame_sizes info self err = (Ok (fs, s1), err1) ->
  info <> []
  /\ List.length fs = List.length info
  /\ map Frame.n fs = map Z.of_nat (seq 1 (List.length info))
  /\ Forall (fun f => Frame.frame_type f = "I" \/ Frame.frame_type f = "Non-I")
       fs
  /\ frames s1 = fs.
Proof.
  intros H. apply calculate_frame_sizes_ok in H.
  destruct H as (_ & -> & fs0 & Hfs0 & Hfix).
  apply frames_of_info_from in Hfs0.
  pose proof (frames_from_length _ _ _ _ Hfs0) as Hlen.
  pose proof (frames_from_indices _ _ _ _ Hfs0 1%nat eq_refl) as Hidx.
  pose proof (frames_from_types _ _ _ _ Hfs0) as Hty.
  destruct (eq_str (first_duration_time info) "NaN") eqn:Eq.
  - destruct Hfix as (e0 & e1 & Hfix). apply fix_durations_same in Hfix.
    destruct Hfix as (Hne & _ & Hsame).
    pose proof (same_packets_length _ _ Hsame) as Hlen'.
    destruct Hsame as (Hn & Ht & _ & _).
    split; [|split; [|split; [|split]]].
    + intros ->. inversion Hfs0; subst. congruence.
    + congruence.
    + congruence.
    + clear - Ht Hty. revert fs Ht.
      induction Hty as [|f0 l0 Hf0 _ IH]; intros fs Ht;
        destruct fs as [|f fs]; try discriminate; constructor.
      * injection Ht as Ht1 _. now rewrite Ht1.
      * apply IH. now injection Ht.
    + reflexivity.
  - subst fs0. split; [|split; [|split; [|split]]]; auto.
    intros ->. discriminate Eq.
Qed.

Lemma normalizer_numbers_packets_witness :
  exists fs s1 err1,
    _calculate_frame_sizes declared_then_missing
      (new_stats "time" (of_Z 1)) [] = (Ok (fs, s1), err1)
    /\ declared_then_missing <> []
    /\ List.length fs = List.length declared_then_missing
    /\ map Frame.n fs
       = map Z.of_nat (seq 1 (List.length declared_then_missing))
    /\ Forall (fun f => Frame.frame_type f = "I"
                        \/ Frame.frame_type f = "Non-I") fs
    /\ frames s1 = fs.
Proof.
  eexists. eexists. eexists. split.
  - lazy. reflexivity.
  - eapply (normalizer_numbers_packets declared_then_missing
              (new_stats "time" (of_Z 1)) _ []).
    lazy. reflexivity.
Defined.

(** Without packets, and outside a dry run, [_calculate_frame_sizes]
    ends with an [IndexError]: no duration is declared, so the repair pass
    runs and indexes the empty list; [calculate_statistics] ends there
    too. *)
Theorem no_packets_raise_IndexError (self : BitrateStats)
    (err : list string) :
  dry_run self = false ->
  fst (_calculate_frame_sizes [] self err) = Raise IndexError
  /\ fst (calculate_statistics [] self err) = Raise IndexError.
Proof.
  intros Hdry.
  assert (E : fst (_calculate_frame_sizes [] self err) = Raise IndexError).
  { unfold _calculate_frame_sizes. unfold_monad. rewrite Hdry.
    destruct (verbose self); reflexivity. }
  split; [exact E|].
  unfold calculate_statistics. now apply bind_raise.
Qed.

Lemma no_packets_raise_IndexError_witness :
  fst (_calculate_frame_sizes [] (new_stats "gop" (of_Z 1)) [])
  = Raise IndexError
  /\ fst (calculate_statistics [] (new_stats "gop" (of_Z 1)) [])
     = Raise IndexError.
Proof.
  apply (no_packets_raise_IndexError (new_stats "gop" (of_Z 1)) []).
  reflexivity.
Defined.

(** In a dry run [calculate_statistics] reads no packet: whatever [info]
    is, it writes the ffprobe command line and the notice of the abort
    (after the line of a verbose run), exits with status 0, and no
    statistic is computed. *)
Theorem dry_run_exits_before_packets (info : list packet_info)
    (self : BitrateStats) (err : list string) :
  dry_run self = true ->
  calculate_statistics info self err
  = (Raise (SystemExit 0),
     (err
      ++ (if verbose self
          then [("Calculating frame size from " ++ input_file self)%string]
          else [])
      ++ [("[cmd] " ++ String.concat " " (ffprobe_cmd self))%string;
          "Aborting prematurely, dry-run specified"])%list).
Proof.
  intros Hdry. unfold calculate_statistics, _calculate_frame_sizes.
  unfold_monad. unfold raise. rewrite Hdry.
  destruct (verbose self); unfold ret; cbn [app]; rewrite <- ?app_assoc;
    reflexivity.
Qed.

Definition dry_stats : BitrateStats :=
  {| input_file := "in.mp4"; stream_type := "audio"; aggregation := "time";
     chunk_size := of_Z 1; dry_run := true; verbose := true;
     duration := of_Z 0; fps := of_Z 0; max_bitrate := of_Z 0;
     min_bitrate := of_Z 0; moving_avg_bitrate := []; frames := [];
     bitrate_stats := None; rounding_factor := 3; _chunks := [];
     avg_bitrate := None; avg_bitrate_over_chunks := None;
     max_bitrate_factor := None |}.

Lemma dry_run_exits_before_packets_witness :
  calculate_statistics declared_then_missing dry_stats []
  = (Raise (SystemExit 0),
     ["Calculating frame size from in.mp4";
      "[cmd] ffprobe -loglevel error -select_streams a:0 -show_packets -show_entries packet=pts_time,dts_time,duration_time,size,flags -of json in.mp4";
      "Aborting prematurely, dry-run specified"]).
Proof.
  apply (dry_run_exits_before_packets declared_then_missing dry_stats []).
  reflexivity.
Defined.

(** ** Declared and inherited durations *)

(** The duration of the frame of [p] when the repair pass does not run. *)
Definition duration_from (dd : value) (p : packet_info) (f : frame) : Prop :=
  match duration_time p with
  | Some t => exists x, float_of_string t = Ok x /\ Frame.duration f = VNum x
  | None => Frame.duration f = dd /\ is_number (Frame.duration f) = false
  end.

Lemma frames_from_durations dd idx info fs :
  is_number dd = false ->
  frames_from dd idx info fs -> Forall2 (duration_from dd) info fs.
Proof.
  intros Hdd. induction 1 as [|idx p f info fs Hf _ IH]; constructor;
    [|exact IH].
  destruct Hf as (_ & _ & _ & Hd & _). unfold duration_from.
  destruct (duration_time p); [exact Hd|]. split; [exact Hd|].
  now rewrite Hd.
Qed.

(** When some packet declares a duration (the first such text not being
    ["NaN"]), the repair pass does not run: a packet that declares a
    duration has the float of its text, a packet that does not has the
    text of the first declared duration, a str and not a number. *)
Theorem normalizer_inherits_text (info : list packet_info)
    (self s1 : BitrateStats) (err err1 : list string) (fs : list frame) :
  _calculate_frame_sizes info self err = (Ok (fs, s1), err1) ->
  eq_str (first_duration_time info) "NaN" = false ->
  Forall2 (duration_from (first_duration_time info)) info fs.
Proof.
  intros H Hdecl. apply calculate_frame_sizes_ok in H.
  destruct H as (_ & _ & fs0 & Hfs0 & Hfix).
  rewrite Hdecl in Hfix. subst fs0.
  apply frames_of_info_from in Hfs0.
  destruct (first_duration_time_text info) as [d Hd].
  eapply frames_from_durations; [|exact Hfs0]. now rewrite Hd.
Qed.

Lemma normalizer_inherits_text_witness :
  exists fs s1 err1,
    _calculate_frame_sizes declared_then_missing
      (new_stats "time" (of_Z 1)) [] = (Ok (fs, s1), err1)
    /\ Forall2 (duration_from (first_duration_time declared_then_missing))
         declared_then_missing fs.
Proof.
  eexists. eexists. eexists. split.
  - lazy. reflexivity.
  - eapply (normalizer_inherits_text declared_then_missing
              (new_stats "time" (of_Z 1)) _ []).
    + lazy. reflexivity.
    + reflexivity.
Defined.

Lemma py_sum_from_text (ds : list value) :
  forall a : pyfloat,
    Forall (fun d => (exists x, d = VNum x) \/ (exists t, d = VStr t)) ds ->
    Exists (fun d => exists t, d = VStr t) ds ->
    py_sum_from (VNum a) ds = Raise TypeError.
Proof.
  induction ds as [|d ds IH]; intros a Hall Hex; [inversion Hex|].
  inversion Hall as [|? ? Hd Hall']; subst.
  destruct Hd as [[x ->]|[t ->]].
  - cbn [py_sum_from py_add]. apply IH; [exact Hall'|].
    inversion Hex as [? ? [t Ht]|]; subst; [discriminate|assumption].
  - reflexivity.
Qed.

(** When some packet declares a duration (the first such text not being
    ["NaN"]) and some packet declares none, an input that the normalizer
    accepts makes [calculate_statistics] end with a [TypeError], in the
    sum of the durations. *)
Theorem mixed_declarations_raise_TypeError (info : list packet_info)
    (self s1 : BitrateStats) (err err1 : list string) (fs : list frame) :
  _calculate_frame_sizes info self err = (Ok (fs, s1), err1) ->
  eq_str (first_duration_time info) "NaN" = false ->
  Exists (fun p => duration_time p = None) info ->
  fst (calculate_statistics info self err) = Raise TypeError.
Proof.
  intros H Hdecl Hex. unfold calculate_statistics.
  rewrite (bind_then _ _ _ _ _ _ _ H).
  pose proof H as H'. apply calculate_frame_sizes_ok in H'.
  destruct H' as (_ & -> & fs0 & Hfs0 & Hfix).
  rewrite Hdecl in Hfix. subst fs0.
  apply frames_of_info_from in Hfs0.
  destruct (first_duration_time_text info) as [d Hd].
  assert (F2 : Forall2 (duration_from (VStr d)) info fs).
  { rewrite Hd in Hfs0.
    exact (frames_from_durations (VStr d) _ _ _ eq_refl Hfs0). }
  apply bind_raise. unfold _calculate_duration. unfold_monad.
  cbn [frames set_frames].
  assert (E : py_sum (map Frame.duration fs) = Raise TypeError).
  { unfold py_sum, of_Z. apply py_sum_from_text.
    - clear - F2. induction F2 as [|p f info fs Hpf _ IH]; constructor;
        [|exact IH].
      unfold duration_from in Hpf. destruct (duration_time p).
      + destruct Hpf as (x & _ & ->). left. eauto.
      + destruct Hpf as (-> & _). right. eauto.
    - clear - F2 Hex. induction F2 as [|p f info fs Hpf _ IH];
        [inversion Hex|].
      inversion Hex as [? ? Hp|? ? Hrest]; subst.
      + unfold duration_from in Hpf. rewrite Hp in Hpf.
        destruct Hpf as (Hdur & _). cbn [map]. apply Exists_cons_hd. eauto.
      + cbn [map]. apply Exists_cons_tl. now apply IH. }
  rewrite E. reflexivity.
Qed.

Lemma mixed_declarations_raise_TypeError_witness :
  fst (calculate_statistics declared_then_missing
         (new_stats "gop" (of_Z 1)) []) = Raise TypeError.
Proof.
  eapply (mixed_declarations_raise_TypeError declared_then_missing
            (new_stats "gop" (of_Z 1)) _ [] []).
  - lazy. reflexivity.
  - reflexivity.
  - apply Exists_cons_tl, Exists_cons_hd. reflexivity.
Defined.

(** ** The shape of the chunks *)

Definition is_key (f : frame) : Prop := Frame.frame_type f = "I".

(** A chunk that begins with a keyframe. *)
Definition starts_with_key (c : list frame) : Prop :=
  exists f rest, c = f :: rest /\ is_key f.

(** A chunk with no keyframe after its first packet. *)
Definition no_key_inside (c : list frame) : Prop :=
  Forall (fun f => ~ is_key f) (tl c).

Lemma no_key_inside_snoc (c : list frame) (f : frame) :
  no_key_inside c -> ~ is_key f -> no_key_inside (c ++ [f]).
Proof.
  unfold no_key_inside. intros Hc Hf. destruct c as [|g c]; simpl.
  - constructor.
  - apply Forall_app. split; [exact Hc|]. now constructor.
Qed.

Lemma starts_with_key_snoc (c : list frame) (f : frame) :
  starts_with_key c -> starts_with_key (c ++ [f]).
Proof.
  intros (g & rest & -> & Hg). exists g, (rest ++ [f])%list. now split.
Qed.

Lemma gop_loop_shape (fs : list frame) :
  forall ac cl ac' cl',
    gop_loop fs ac cl = (ac', cl') ->
    Forall no_key_inside ac -> no_key_inside cl ->
    Forall starts_with_key (tl ac) ->
    (ac <> [] -> starts_with_key cl) ->
    Forall no_key_inside ac' /\ no_key_inside cl'
    /\ Forall starts_with_key (tl ac')
    /\ (ac' <> [] -> starts_with_key cl').
Proof.
  induction fs as [|f fs IH]; intros ac cl ac' cl' H Hac Hcl Htl Hkey.
  - simpl in H. inversion H; subst. auto.
  - cbn [gop_loop] in H.
    destruct (String.eqb_spec (Frame.frame_type f) "I") as [E|E];
      cbn [negb] in H.
    + eapply IH; [exact H | | | | ].
      * destruct cl as [|g cl]; [exact Hac|].
        apply Forall_app. split; [exact Hac|]. now constructor.
      * constructor.
      * destruct cl as [|g cl]; [exact Htl|].
        destruct ac as [|a ac]; [constructor|].
        cbn [tl app]. apply Forall_app. split; [exact Htl|].
        constructor; [|constructor]. apply Hkey. discriminate.
      * intros _. exists f, []. now split.
    + eapply IH; [exact H | exact Hac | | exact Htl | ].
      * now apply no_key_inside_snoc.
      * intros Hne. apply starts_with_key_snoc. now apply Hkey.
Qed.

(** In [gop] mode every chunk but the first begins with a keyframe, and
    no chunk has a keyframe after its first packet. *)
Theorem gop_chunks_split_at_keyframes (cs : value) (fs : list frame)
    (chunks : list (list frame)) :
  aggregation_chunks_of "gop" cs fs = Ok chunks ->
  Forall starts_with_key (tl chunks) /\ Forall no_key_inside chunks.
Proof.
  unfold aggregation_chunks_of. simpl String.eqb. cbv iota.
  destruct (gop_loop fs [] []) as [ac cl] eqn:E. intros H.
  inversion H; subst. clear H.
  destruct (gop_loop_shape fs [] [] ac cl E) as (Hac & Hcl & Htl & Hkey).
  - constructor.
  - constructor.
  - constructor.
  - congruence.
  - split.
    + destruct ac as [|a ac]; [constructor|].
      cbn [tl app]. apply Forall_app. split; [exact Htl|].
      constructor; [|constructor]. apply Hkey. discriminate.
    + apply Forall_app. split; [exact Hac|]. now constructor.
Qed.

Lemma gop_chunks_split_at_keyframes_witness :
  Forall starts_with_key
    (tl [[sample_frame 1 "I" 0 (3 # 10);
          sample_frame 2 "Non-I" (3 # 10) (3 # 10)];
         [sample_frame 3 "I" (6 # 10) (3 # 10);
          sample_frame 4 "Non-I" (9 # 10) (3 # 10);
          sample_frame 5 "Non-I" (12 # 10) (3 # 10)]])
  /\ Forall no_key_inside
       [[sample_frame 1 "I" 0 (3 # 10);
         sample_frame 2 "Non-I" (3 # 10) (3 # 10)];
        [sample_frame 3 "I" (6 # 10) (3 # 10);
         sample_frame 4 "Non-I" (9 # 10) (3 # 10);
         sample_frame 5 "Non-I" (12 # 10) (3 # 10)]].
Proof.
  apply (gop_chunks_split_at_keyframes (of_Z 1) five_frames).
  reflexivity.
Defined.

Lemma close_nonempty {A} (xss : list (list A)) (xs : list A) :
  Forall (fun c => c <> []) xss ->
  Forall (fun c => c <> [])
    match xs with [] => xss | _ => (xss ++ [xs])%list end.
Proof.
  intros H. destruct xs as [|x xs]; [exact H|].
  apply Forall_app. split; [exact H|]. constructor; [discriminate|constructor].
Qed.

Lemma snoc_nonempty {A} (xs : list A) (x : A) : (xs ++ [x])%list <> [].
Proof. destruct xs; discriminate. Qed.

Lemma gop_loop_nonempty (fs : list frame) :
  forall ac cl ac' cl',
    gop_loop fs ac cl = (ac', cl') ->
    Forall (fun c => c <> []) ac ->
    (fs = [] -> cl <> []) ->
    Forall (fun c => c <> []) ac' /\ cl' <> [].
Proof.
  induction fs as [|f fs IH]; intros ac cl ac' cl' H Hac Hcl.
  - simpl in H. inversion H; subst. auto.
  - cbn [gop_loop] in H.
    destruct (String.eqb (Frame.frame_type f) "I"); cbn [negb] in H.
    + eapply IH; [exact H | now apply close_nonempty | discriminate].
    + eapply IH; [exact H | exact Hac | intros _; apply snoc_nonempty].
Qed.

Lemma time_loop_nonempty (cs : value) (fs : list frame) :
  forall ac cl agg ac' cl',
    time_loop cs fs ac cl agg = Ok (ac', cl') ->
    Forall (fun c => c <> []) ac ->
    (fs = [] -> cl <> []) ->
    Forall (fun c => c <> []) ac' /\ cl' <> [].
Proof.
  induction fs as [|f fs IH]; intros ac cl agg ac' cl' H Hac Hcl;
    cbn [time_loop] in H.
  - inversion H; subst. auto.
  - destruct (py_lt (VNum agg) cs) as [[|]|e]; try discriminate;
      destruct (py_float (Frame.duration f)) as [d|e']; try discriminate.
    + eapply IH; [exact H | exact Hac | intros _; apply snoc_nonempty].
    + eapply IH; [exact H | now apply close_nonempty | discriminate].
Qed.

(** Whatever the mode, the chunks made of a non-empty packet list are all
    non-empty; without packets the chunker returns one empty chunk. *)
Theorem chunks_are_nonempty (agg : string) (cs : value) (fs : list frame)
    (chunks : list (list frame)) :
  aggregation_chunks_of agg cs fs = Ok chunks ->
  (fs <> [] -> Forall (fun c => c <> []) chunks)
  /\ (fs = [] -> chunks = [[]]).
Proof.
  unfold aggregation_chunks_of. intros H. split.
  - intros Hne. destruct (String.eqb agg "gop").
    + destruct (gop_loop fs [] []) as [ac cl] eqn:E. inversion H; subst.
      destruct (gop_loop_nonempty fs [] [] ac cl E) as [Hac Hcl];
        [constructor | congruence |].
      apply Forall_app. split; [exact Hac|]. now constructor.
    + destruct (time_loop cs fs [] [] (Fin 0)) as [[ac cl]|e] eqn:E;
        [|discriminate].
      inversion H; subst.
      destruct (time_loop_nonempty cs fs [] [] (Fin 0) ac cl E) as [Hac Hcl];
        [constructor | congruence |].
      apply Forall_app. split; [exact Hac|]. now constructor.
  - intros ->. destruct (String.eqb agg "gop"); simpl in H; now inversion H.
Qed.

Lemma chunks_are_nonempty_witness :
  (five_frames <> [] ->
   Forall (fun c => c <> [])
     [[sample_frame 1 "I" 0 (3 # 10);
       sample_frame 2 "Non-I" (3 # 10) (3 # 10)];
      [sample_frame 3 "I" (6 # 10) (3 # 10);
       sample_frame 4 "Non-I" (9 # 10) (3 # 10)];
      [sample_frame 5 "Non-I" (12 # 10) (3 # 10)]])
  /\ (five_frames = [] ->
      [[sample_frame 1 "I" 0 (3 # 10);
        sample_frame 2 "Non-I" (3 # 10) (3 # 10)];
       [sample_frame 3 "I" (6 # 10) (3 # 10);
        sample_frame 4 "Non-I" (9 # 10) (3 # 10)];
       [sample_frame 5 "Non-I" (12 # 10) (3 # 10)]] = [[]]).
Proof.
  apply (chunks_are_nonempty "time" (num (1 # 2)) five_frames).
  reflexivity.
Defined.

(** ** The bitrate of a chunk *)




(** A presentation time that is a finite number, or the marker the
    normalizer leaves when the packet has none. *)
Definition pts_or_marker (f : frame) : Prop :=
  (exists p, Frame.pts f = num p) \/ Frame.pts f = VStr "NaN".

Lemma sum_deltas_nan (vs : list value) :
  forall acc : pyfloat,
    Forall (fun v => (exists p, v = num p) \/ v = VStr "NaN") vs ->
    exists r,
      sum_deltas acc (combine (tl vs) vs) = Ok r
      /\ (acc = NaN -> r = NaN)
      /\ (Exists (fun v => v = VStr "NaN") vs ->
          (2 <= List.length vs)%nat -> r = NaN).
Proof.
  induction vs as [|v vs IH]; intros acc Hall.
  - exists acc. repeat split; auto. intros H. inversion H.
  - destruct vs as [|w vs].
    + exists acc. repeat split; auto. simpl. intros _ H. lia.
    + inversion Hall as [|? ? Hv Hall']; subst.
      assert (Hw : (exists q, w = num q) \/ w = VStr "NaN")
        by (inversion Hall'; assumption).
      change (combine (tl (v :: w :: vs)) (v :: w :: vs))
        with ((w, v) :: combine (tl (w :: vs)) (w :: vs)).
      cbn [sum_deltas].
      assert (Fv : exists xv, py_float v = Ok xv
                              /\ (v = VStr "NaN" -> xv = NaN)).
      { destruct Hv as [[pv ->]| ->].
        - exists (Fin pv). split; [reflexivity|discriminate].
        - exists NaN. split; [reflexivity|reflexivity]. }
      assert (Fw : exists xw, py_float w = Ok xw
                              /\ (w = VStr "NaN" -> xw = NaN)).
      { destruct Hw as [[pw ->]| ->].
        - exists (Fin pw). split; [reflexivity|discriminate].
        - exists NaN. split; [reflexivity|reflexivity]. }
      destruct Fv as (xv & Ev & Nv). destruct Fw as (xw & Ew & Nw).
      rewrite Ew, Ev.
      destruct (IH (fadd acc (fsub xw xv)) Hall') as (r & Er & Hacc & Hex).
      exists r. split; [exact Er|]. split.
      * intros ->. apply Hacc. reflexivity.
      * intros Hexists _.
        apply Exists_cons in Hexists. destruct Hexists as [Hhd|Htl].
        -- apply Hacc. rewrite (Nv Hhd). destruct acc, xw; reflexivity.
        -- pose proof Htl as Htl0.
           apply Exists_cons in Htl. destruct Htl as [Hhd|Htl'].
           ++ apply Hacc. rewrite (Nw Hhd). destruct acc; reflexivity.
           ++ apply Hex; [exact Htl0|].
              destruct vs; [inversion Htl'|simpl; lia].
Qed.

(** A missing presentation time is not an error for the chunk bitrate:
    in a chunk of two or more packets whose times are finite numbers or
    the marker ["NaN"], one marker makes the bitrate [nan]. *)
Theorem bitrate_with_missing_pts_is_nan (c : list frame) :
  (2 <= List.length c)%nat ->
  Forall pts_or_marker c ->
  Exists (fun f => Frame.pts f = VStr "NaN") c ->
  _bitrate_for_frame_list c = Ok (VNum NaN).
Proof.
  intros Hlen Hall Hex. unfold _bitrate_for_frame_list.
  assert (Hlt : (1 <? List.length c)%nat = true) by (apply Nat.ltb_lt; lia).
  rewrite Hlt.
  destruct (sum_deltas_nan (map Frame.pts c) (Fin 0)) as (r & E & _ & Hnan).
  { rewrite Forall_map. exact Hall. }
  rewrite E, Hnan.
  - reflexivity.
  - rewrite Exists_map. exact Hex.
  - now rewrite length_map.
Qed.

Lemma bitrate_with_missing_pts_is_nan_witness :
  _bitrate_for_frame_list gap_pts_frames = Ok (VNum NaN).
Proof.
  apply (bitrate_with_missing_pts_is_nan gap_pts_frames).
  - simpl. lia.
  - apply Forall_cons; [left; eexists; reflexivity|].
    apply Forall_cons; [left; eexists; reflexivity|].
    apply Forall_cons; [right; reflexivity|].
    apply Forall_nil.
  - apply Exists_cons_tl, Exists_cons_tl, Exists_cons_hd. reflexivity.
Defined.

Lemma bitrate_is_number (x : list frame) (b : value) :
  (1 <? List.length x)%nat = true ->
  _bitrate_for_frame_list x = Ok b -> is_number b = true.
Proof.
  unfold _bitrate_for_frame_list. intros ->.
  destruct (sum_deltas _ _) as [d|e]; [|discriminate].
  unfold py_truediv. destruct (fis_zero d); [discriminate|].
  destruct (Qred _), d; intros H; inversion H; reflexivity.
Qed.

(** The bitrate series has one entry for each chunk of two or more
    packets, in their order, and every entry is a number: a shorter chunk
    leaves no [None] behind. *)
Theorem bitrates_one_per_long_chunk (acs : list (list frame))
    (bs : list value) :
  bitrates acs = Ok bs ->
  Forall2 (fun x b => _bitrate_for_frame_list x = Ok b)
    (filter (fun x => (1 <? List.length x)%nat) acs) bs
  /\ Forall (fun b => is_number b = true) bs.
Proof.
  revert bs. induction acs as [|x acs IH]; intros bs H.
  - simpl in H. inversion H. split; constructor.
  - cbn [bitrates filter] in *.
    destruct (1 <? List.length x)%nat eqn:E.
    + destruct (_bitrate_for_frame_list x) as [b|e] eqn:Eb; [|discriminate].
      destruct (bitrates acs) as [bs'|e]; [|discriminate].
      inversion H; subst. destruct (IH bs' eq_refl) as [H1 H2].
      split; constructor; auto. eapply bitrate_is_number; eauto.
    + now apply IH.
Qed.

Lemma bitrates_one_per_long_chunk_witness :
  Forall2 (fun x b => _bitrate_for_frame_list x = Ok b)
    (filter (fun x => (1 <? List.length x)%nat)
       [[sample_frame 1 "I" 0 (3 # 10);
         sample_frame 2 "Non-I" (3 # 10) (3 # 10)];
        [sample_frame 5 "Non-I" (12 # 10) (3 # 10)]])
    [num (160 # 3)]
  /\ Forall (fun b => is_number b = true) [num (160 # 3)].
Proof.
  apply (bitrates_one_per_long_chunk
           [[sample_frame 1 "I" 0 (3 # 10);
             sample_frame 2 "Non-I" (3 # 10) (3 # 10)];
            [sample_frame 5 "Non-I" (12 # 10) (3 # 10)]]).
  reflexivity.
Defined.

(** ** The cache of [_collect_chunks] *)

(** Once [_collect_chunks] has returned a non-empty series, every later
    call returns that series again, changes nothing and writes nothing,
    even after [self.frames] has been replaced: the cache is never
    recomputed. *)
Theorem collect_chunks_answers_from_cache (self s1 : BitrateStats)
    (err err1 : list string) (c : list value) (fs : list frame)
    (err2 : list string) :
  _collect_chunks self err = (Ok (c, s1), err1) ->
  c <> [] ->
  _collect_chunks s1 err2 = (Ok (c, s1), err2)
  /\ _collect_chunks (set_frames fs s1) err2
     = (Ok (c, set_frames fs s1), err2).
Proof.
  intros H Hne. apply collect_chunks_ok in H.
  destruct H as [_ ->].
  unfold _collect_chunks. unfold_monad. cbn [_chunks set_chunks set_frames].
  destruct c as [|b c]; [congruence|]. split; reflexivity.
Qed.

Definition two_chunk_stats : BitrateStats :=
  set_frames five_frames (new_stats "gop" (of_Z 1)).

Lemma collect_chunks_answers_from_cache_witness :
  _collect_chunks
    (set_chunks [num (160 # 3); num 40] two_chunk_stats) ["later"]
  = (Ok ([num (160 # 3); num 40],
         set_chunks [num (160 # 3); num 40] two_chunk_stats), ["later"])
  /\ _collect_chunks
       (set_frames [] (set_chunks [num (160 # 3); num 40] two_chunk_stats))
       ["later"]
     = (Ok ([num (160 # 3); num 40],
            set_frames []
              (set_chunks [num (160 # 3); num 40] two_chunk_stats)),
        ["later"]).
Proof.
  apply (collect_chunks_answers_from_cache two_chunk_stats _ [] []).
  - reflexivity.
  - discriminate.
Defined.

(** An empty series is not cached: with [verbose] set, each call of
    [_collect_chunks] that finds no chunk of two packets computes the
    chunks again and writes its line again. *)
Theorem empty_series_is_recomputed (self s1 : BitrateStats)
    (err err1 err2 : list string) :
  verbose self = true ->
  _collect_chunks self err = (Ok ([], s1), err1) ->
  err1 = (err ++ ["Collecting chunks for bitrate calculation"])%list
  /\ _collect_chunks s1 err2
     = (Ok ([], s1),
        (err2 ++ ["Collecting chunks for bitrate calculation"])%list).
Proof.
  intros Hv H. pose proof H as H0. apply collect_chunks_ok in H0.
  destruct H0 as [Hc ->].
  unfold chunk_series in Hc. unfold _collect_chunks in *.
  unfold bind, get in *. cbn [_chunks set_chunks aggregation chunk_size
                              frames verbose] in *.
  destruct (_chunks self) as [|b bs] eqn:Ec.
  - cbn [List.length Nat.eqb negb] in *. rewrite Hv in *.
    unfold_monad. unfold bind, lift, ret, modify, when, print_stderr in H.
    destruct (aggregation_chunks_of _ _ _) as [ac|e]; [|discriminate].
    destruct (bitrates ac) as [bs|e]; [|discriminate].
    inversion Hc; subst bs. inversion H; subst.
    split; reflexivity.
  - cbn [List.length Nat.eqb negb] in Hc. discriminate.
Qed.

Definition verbose_single_stats : BitrateStats :=
  {| input_file := "in.mp4"; stream_type := "video"; aggregation := "gop";
     chunk_size := of_Z 1; dry_run := false; verbose := true;
     duration := of_Z 0; fps := of_Z 0; max_bitrate := of_Z 0;
     min_bitrate := of_Z 0; moving_avg_bitrate := [];
     frames := [sample_frame 1 "I" 0 (1 # 25)];
     bitrate_stats := None; rounding_factor := 3; _chunks := [];
     avg_bitrate := None; avg_bitrate_over_chunks := None;
     max_bitrate_factor := None |}.

Lemma empty_series_is_recomputed_witness :
  ["Collecting chunks for bitrate calculation"]
  = ([] ++ ["Collecting chunks for bitrate calculation"])%list
  /\ _collect_chunks (set_chunks [] verbose_single_stats) ["later"]
     = (Ok ([], set_chunks [] verbose_single_stats),
        (["later"] ++ ["Collecting chunks for bitrate calculation"])%list).
Proof.
  apply (empty_series_is_recomputed verbose_single_stats _ []).
  - reflexivity.
  - reflexivity.
Defined.

(** ** The minimum and the maximum *)

Lemma py_max_from_in (qs : list Q) :
  forall (b : Q) (v : value),
    py_max_from (num b) (map num qs) = Ok v ->
    exists M,
      v = num M /\ In M (b :: qs)
      /\ Forall (fun q => (q <= M)%Q) (b :: qs).
Proof.
  induction qs as [|q qs IH]; intros b v H.
  - simpl in H. inversion H; subst. exists b. repeat split.
    + now left.
    + constructor; [apply Qle_refl|constructor].
  - cbn [map py_max_from] in H. unfold py_gt, num in H. cbn [py_lt] in H.
    destruct (flt (Fin b) (Fin q)) eqn:E.
    + apply flt_true in E.
      destruct (IH q v H) as (M & -> & Hin & Hall).
      exists M. repeat split.
      * right. exact Hin.
      * inversion Hall as [|? ? HqM Hrest]; subst.
        constructor; [|exact Hall]. apply Qlt_le_weak.
        eapply Qlt_le_trans; eauto.
    + apply flt_false in E.
      destruct (IH b v H) as (M & -> & Hin & Hall).
      exists M. repeat split.
      * destruct Hin as [Hb|Hin]; [now left|right; now right].
      * inversion Hall as [|? ? HbM Hrest]; subst.
        constructor; [exact HbM|]. constructor; [|exact Hrest].
        eapply Qle_trans; eauto.
Qed.

Lemma py_min_from_in (qs : list Q) :
  forall (b : Q) (v : value),
    py_min_from (num b) (map num qs) = Ok v ->
    exists m,
      v = num m /\ In m (b :: qs)
      /\ Forall (fun q => (m <= q)%Q) (b :: qs).
Proof.
  induction qs as [|q qs IH]; intros b v H.
  - simpl in H. inversion H; subst. exists b. repeat split.
    + now left.
    + constructor; [apply Qle_refl|constructor].
  - cbn [map py_min_from] in H. unfold num in H. cbn [py_lt] in H.
    destruct (flt (Fin q) (Fin b)) eqn:E.
    + apply flt_true in E.
      destruct (IH q v H) as (m & -> & Hin & Hall).
      exists m. repeat split.
      * right. exact Hin.
      * inversion Hall as [|? ? Hmq Hrest]; subst.
        constructor; [|exact Hall]. apply Qlt_le_weak.
        eapply Qle_lt_trans; eauto.
    + apply flt_false in E.
      destruct (IH b v H) as (m & -> & Hin & Hall).
      exists m. repeat split.
      * destruct Hin as [Hb|Hin]; [now left|right; now right].
      * inversion Hall as [|? ? Hmb Hrest]; subst.
        constructor; [exact Hmb|]. constructor; [|exact Hrest].
        eapply Qle_trans; eauto.
Qed.

(** When [_calculate_max_min_bitrate] ends normally on a series of finite
    bitrates, [max_bitrate] and [min_bitrate] are both members of the
    series, every bitrate of the series lies between them, and the series
    is what [self._chunks] holds afterwards. *)
Theorem max_min_bracket_the_series (self s1 : BitrateStats)
    (err err1 : list string) (mx mn : value) (qs : list Q) :
  _calculate_max_min_bitrate self err = (Ok ((mx, mn), s1), err1) ->
  _chunks s1 = map num qs ->
  exists M m,
    mx = num M /\ mn = num m
    /\ max_bitrate s1 = mx /\ min_bitrate s1 = mn
    /\ In M qs /\ In m qs
    /\ Forall (fun q => (m <= q)%Q /\ (q <= M)%Q) qs.
Proof.
  intros H Hqs. apply calculate_max_min_ok in H.
  destruct H as (c & _ & Hne & Hmax & Hmin & ->).
  cbn [_chunks set_min_bitrate set_chunks] in Hqs. subst c.
  destruct qs as [|q qs]; [now elim Hne|].
  cbn [map py_max py_min] in Hmax, Hmin.
  destruct (py_max_from_in qs q mx Hmax) as (M & -> & HinM & HallM).
  destruct (py_min_from_in qs q mn Hmin) as (m & -> & Hinm & Hallm).
  exists M, m. repeat split; try assumption.
  rewrite Forall_forall in *. intros x Hx. split; auto.
Qed.

Lemma max_min_bracket_the_series_witness :
  exists mx mn s1 err1,
    _calculate_max_min_bitrate two_chunk_stats [] = (Ok ((mx, mn), s1), err1)
    /\ exists M m,
         mx = num M /\ mn = num m
         /\ max_bitrate s1 = mx /\ min_bitrate s1 = mn
         /\ In M [160 # 3; 40]%Q /\ In m [160 # 3; 40]%Q
         /\ Forall (fun q => (m <= q)%Q /\ (q <= M)%Q) [160 # 3; 40]%Q.
Proof.
  eexists. eexists. eexists. eexists. split.
  - lazy. reflexivity.
  - eapply (max_min_bracket_the_series two_chunk_stats _ []).
    + lazy. reflexivity.
    + reflexivity.
Defined.

(** ** The summary record *)

Lemma chunk_series_stable (self : BitrateStats) (c : list value) :
  chunk_series self = Ok c -> chunk_series (set_chunks c self) = Ok c.
Proof.
  unfold chunk_series. cbn [_chunks set_chunks aggregation chunk_size frames].
  destruct (_chunks self) as [|b bs] eqn:Ec; cbn [List.length Nat.eqb negb].
  - intros H. destruct c as [|x c]; [exact H|reflexivity].
  - intros H. inversion H; subst. reflexivity.
Qed.

(** What a normal end of [_assemble_bitrate_statistics] tells about the
    record and the state it leaves. *)
Lemma assemble_record (self : BitrateStats) err r s1 err1 :
  _assemble_bitrate_statistics self err = (Ok (r, s1), err1) ->
  let nd := rounding_factor self in
  exists c ab mean mbf,
    chunk_series self = Ok c
    /\ py_truediv (kbits (frames self)) (duration self) = Ok ab
    /\ np_mean c = Ok mean
    /\ py_truediv (max_bitrate self) ab = Ok mbf
    /\ py_round (fps self) nd = Ok (s_avg_fps r)
    /\ py_round ab nd = Ok (s_avg_bitrate r)
    /\ py_round mean nd = Ok (s_avg_bitrate_over_chunks r)
    /\ py_round (max_bitrate self) nd = Ok (s_max_bitrate r)
    /\ py_round (min_bitrate self) nd = Ok (s_min_bitrate r)
    /\ py_round mbf nd = Ok (s_max_bitrate_factor r)
    /\ round_all nd c = Ok (s_bitrate_per_chunk r)
    /\ py_round (duration self) nd = Ok (s_duration r)
    /\ s_input_file r = input_file self
    /\ s_stream_type r = stream_type self
    /\ s_num_frames r = Z.of_nat (List.length (frames self))
    /\ s_aggregation r = aggregation self
    /\ s_chunk_size r = chunk_size self
    /\ bitrate_stats s1 = Some r
    /\ frames s1 = frames self
    /\ _chunks s1 = c.
Proof.
  intros H nd. unfold _assemble_bitrate_statistics in H.
  bind_step H self0 Hget. apply get_ok in Hget.
  destruct Hget as (-> & -> & ->).
  lift_step H ab Hab.
  bind_step H c1 Hc1. apply collect_chunks_ok in Hc1.
  destruct Hc1 as [Hc1 ->].
  lift_step H mean Hmean.
  lift_step H mbf Hmbf.
  cbv zeta in H.
  lift_step H rfps Hrfps.
  lift_step H ravg Hravg.
  lift_step H raoc Hraoc.
  lift_step H rmax Hrmax.
  lift_step H rmin Hrmin.
  lift_step H rmbf Hrmbf.
  bind_step H c2 Hc2. apply collect_chunks_ok in Hc2.
  destruct Hc2 as [Hc2 ->].
  rewrite (chunk_series_stable _ _ Hc1) in Hc2. inversion Hc2; subst c2.
  lift_step H rchunks Hrchunks.
  lift_step H rdur Hrdur.
  bind_step H u Hmod. apply modify_ok in Hmod. destruct Hmod as (-> & ->).
  unfold ret in H. inversion H; subst. clear H.
  exists c1, ab, mean, mbf. cbn.
  repeat split; assumption.
Qed.





Definition sparse_summary : summary :=
  {| s_input_file := "in.mp4"; s_stream_type := "video";
     s_avg_fps := num 2; s_num_frames := 2; s_avg_bitrate := num 16;
     s_avg_bitrate_over_chunks := num (8 # 5); s_max_bitrate := num (8 # 5);
     s_min_bitrate := num (8 # 5); s_max_bitrate_factor := num (1 # 10);
     s_bitrate_per_chunk := [num (8 # 5)]; s_aggregation := "time";
     s_chunk_size := of_Z 1; s_duration := num 1 |}.


(** When [statistics_of_frames] ends normally, the record it returns is
    the one left in [self.bitrate_stats]; it repeats the input file, the
    stream type, the aggregation and the chunk size of the object, counts
    the frames, which the run has not changed, and its per-chunk list is
    the chunk series, entry by entry, rounded. *)
Theorem summary_reports_the_run (self s' : BitrateStats)
    (err err' : list string) (r : summary) :
  statistics_of_frames self err = (Ok (r, s'), err') ->
  bitrate_stats s' = Some r
  /\ frames s' = frames self
  /\ s_input_file r = input_file self
  /\ s_stream_type r = stream_type self
  /\ s_aggregation r = aggregation self
  /\ s_chunk_size r = chunk_size self
  /\ s_num_frames r = Z.of_nat (List.length (frames self))
  /\ exists c,
       chunk_series self = Ok c
       /\ _chunks s' = c
       /\ round_all (rounding_factor self) c = Ok (s_bitrate_per_chunk r).
Proof.
  unfold statistics_of_frames. intros H.
  bind_step H d Hd. apply calculate_duration_ok in Hd.
  destruct Hd as (total & _ & _ & -> & ->).
  bind_step H f Hf. apply calculate_fps_ok in Hf.
  destruct Hf as (_ & -> & ->).
  bind_step H mm Hmm. destruct mm as [mx mn].
  apply calculate_max_min_ok in Hmm.
  destruct Hmm as (c & Hc & Hne & _ & _ & ->).
  pose proof H as H0. apply assemble_record in H0. cbv zeta in H0.
  destruct H0 as (c' & ab & mean & mbf & Hc' & _ & _ & _ & _ & _ & _ & _
                  & _ & _ & Hall & _ & Hi & Hs & Hn & Ha & Hcs & Hb & Hfr
                  & Hch).
  match type of Hc' with
  | chunk_series ?X = _ =>
      rewrite (chunk_series_cached X c eq_refl Hne) in Hc'
  end.
  assert (Ecc : c' = c) by congruence.
  rewrite Ecc in Hall, Hch. clear Ecc Hc'.
  cbn in Hall, Hi, Hs, Hn, Ha, Hcs, Hfr.
  repeat split; try assumption.
  exists c. split; [exact Hc|]. split; [exact Hch|exact Hall].
Qed.

Lemma summary_reports_the_run_witness :
  exists s' err',
    statistics_of_frames sparse_stats [] = (Ok (sparse_summary, s'), err')
    /\ bitrate_stats s' = Some sparse_summary
    /\ frames s' = frames sparse_stats
    /\ s_input_file sparse_summary = input_file sparse_stats
    /\ s_stream_type sparse_summary = stream_type sparse_stats
    /\ s_aggregation sparse_summary = aggregation sparse_stats
    /\ s_chunk_size sparse_summary = chunk_size sparse_stats
    /\ s_num_frames sparse_summary
       = Z.of_nat (List.length (frames sparse_stats))
    /\ exists c,
         chunk_series sparse_stats = Ok c
         /\ _chunks s' = c
         /\ round_all (rounding_factor sparse_stats) c
            = Ok (s_bitrate_per_chunk sparse_summary).
Proof.
  eexists. eexists. split.
  - lazy. reflexivity.
  - eapply (summary_reports_the_run sparse_stats _ []).
    lazy. reflexivity.
Defined.

(** ** A single packet *)

Lemma statistics_fail_without_series (self : BitrateStats)
    (err : list string) :
  chunk_series self = Ok [] \/ (exists e, chunk_series self = Raise e) ->
  exists e, fst (statistics_of_frames self err) = Raise e.
Proof.
  intros Hc. unfold statistics_of_frames.
  destruct (_calculate_duration self err) as [[[d sa]|e] ea] eqn:Ed.
  2:{ exists e. apply bind_raise. now rewrite Ed. }
  rewrite (bind_then _ _ _ _ _ _ _ Ed).
  apply calculate_duration_ok in Ed.
  destruct Ed as (total & _ & _ & -> & ->).
  destruct (_calculate_fps (set_duration d self) err) as [[[f sb]|e] eb] eqn:Ef.
  2:{ exists e. apply bind_raise. now rewrite Ef. }
  rewrite (bind_then _ _ _ _ _ _ _ Ef).
  apply calculate_fps_ok in Ef. destruct Ef as (_ & -> & ->).
  destruct Hc as [Hc|[e Hc]].
  - exists ValueError. apply bind_raise.
    apply max_min_raises_on_empty. exact Hc.
  - exists e. apply bind_raise. unfold _calculate_max_min_bitrate.
    apply bind_raise. apply collect_chunks_raise. exact Hc.
Qed.

Lemma single_frame_series (self : BitrateStats) (f : frame) :
  _chunks self = [] -> frames self = [f] ->
  chunk_series self = Ok [] \/ (exists e, chunk_series self = Raise e).
Proof.
  intros Hc Hf. unfold chunk_series, aggregation_chunks_of.
  rewrite Hc, Hf. cbn [List.length Nat.eqb negb].
  destruct (String.eqb (aggregation self) "gop").
  - cbn [gop_loop]. destruct (String.eqb (Frame.frame_type f) "I");
      left; reflexivity.
  - cbn [time_loop].
    destruct (py_lt (VNum (Fin 0)) (chunk_size self)) as [[|]|e];
      [| |right; eauto];
      (destruct (py_float (Frame.duration f)) as [d|e];
       [left; reflexivity|right; eauto]).
Qed.

Lemma calculate_frame_sizes_length (info : list packet_info)
    (self : BitrateStats) err fs s1 err1 :
  _calculate_frame_sizes info self err = (Ok (fs, s1), err1) ->
  List.length fs = List.length info /\ s1 = set_frames fs self.
Proof.
  intros H. apply calculate_frame_sizes_ok in H.
  destruct H as (_ & -> & fs0 & Hfs0 & Hfix). split; [|reflexivity].
  apply frames_of_info_from, frames_from_length in Hfs0.
  destruct (eq_str (first_duration_time info) "NaN").
  - destruct Hfix as (e0 & e1 & Hfix). apply fix_durations_same in Hfix.
    destruct Hfix as (_ & _ & Hsame).
    rewrite (same_packets_length _ _ Hsame). exact Hfs0.
  - now subst fs0.
Qed.

(** A stream of one packet never yields statistics: on an object that
    has cached nothing, [calculate_statistics] ends with an exception
    whatever the packet and the configuration, the one chunk being too
    short for a bitrate. *)
Theorem single_packet_never_yields_statistics (p : packet_info)
    (self : BitrateStats) (err : list string) :
  _chunks self = [] ->
  exists e, fst (calculate_statistics [p] self err) = Raise e.
Proof.
  intros Hc.
  destruct (_calculate_frame_sizes [p] self err) as [[[fs s1]|e] e1] eqn:E.
  2:{ exists e. unfold calculate_statistics. apply bind_raise.
      now rewrite E. }
  unfold calculate_statistics. rewrite (bind_then _ _ _ _ _ _ _ E).
  apply calculate_frame_sizes_length in E. destruct E as [Hlen ->].
  destruct fs as [|f [|g fs]]; try discriminate.
  apply (statistics_fail_without_series (set_frames [f] self) e1).
  apply (single_frame_series _ f); [exact Hc|reflexivity].
Qed.

Lemma single_packet_never_yields_statistics_witness :
  exists e,
    fst (calculate_statistics [packet "K_" "0.000000" (Some "0.040000") "1000"]
           (new_stats "time" (of_Z 1)) []) = Raise e.
Proof.
  apply (single_packet_never_yields_statistics
           (packet "K_" "0.000000" (Some "0.040000") "1000")
           (new_stats "time" (of_Z 1)) []).
  reflexivity.
Defined.

(** ** The total of the repaired durations *)










(** * Properties over binary floating point *)

Import B64.

(** ** Floats *)

(** Two floats that are the same number: equal, or both a zero. *)
Definition same_number (x y : float) : Prop :=
  x = y \/ (fis_zero x = true /\ fis_zero y = true).

Lemma fadd_same_number (x y d : float) :
  same_number x y -> same_number (fadd x d) (fadd y d).
Proof.
  intros [->|[Hx Hy]]; [now left|].
  destruct x; try discriminate. destruct y; try discriminate.
  destruct d as [sd|sd| |sd md ed].
  - right. destruct s, s0, sd; split; reflexivity.
  - left. reflexivity.
  - left. reflexivity.
  - left. reflexivity.
Qed.

Lemma flt_same_number (x y c : float) :
  same_number x y -> flt x c = flt y c.
Proof.
  intros [->|[Hx Hy]]; [reflexivity|].
  destruct x; try discriminate. destruct y; try discriminate.
  destruct c; reflexivity.
Qed.

Lemma fadd_zero_same (d : float) : same_number (fadd zero d) d.
Proof.
  destruct d as [sd|sd| |sd md ed].
  - right. destruct sd; split; reflexivity.
  - left. reflexivity.
  - left. reflexivity.
  - left. reflexivity.
Qed.




(** ** Running the methods over floats *)

Lemma set_chunks_unchanged (self : BitrateStats) :
  set_chunks (_chunks self) self = self.
Proof. now destruct self. Qed.

Lemma collect_chunks_returns `{Builtins} (self : BitrateStats) err c s1 err1 :
  _collect_chunks self err = (Ok (c, s1), err1) ->
  chunk_series self = Ok c /\ s1 = set_chunks c self.
Proof.
  unfold _collect_chunks, chunk_series. unfold_monad.
  destruct (negb (Nat.eqb (List.length (_chunks self)) 0)).
  - intros E. inversion E; subst. now rewrite set_chunks_unchanged.
  - destruct (verbose self);
      (destruct (aggregation_chunks_of _ _ _) as [ac|e]; [|discriminate]);
      (destruct (bitrates ac) as [bs|e]; [|discriminate]);
      intros E; inversion E; subst; now split.
Qed.

Lemma chunk_series_of_cache `{Builtins} (self : BitrateStats)
    (c : list value) :
  _chunks self = c -> c <> [] -> chunk_series self = Ok c.
Proof.
  intros <- Hne. unfold chunk_series.
  destruct (_chunks self); [congruence|reflexivity].
Qed.

Lemma calculate_duration_returns `{Builtins} (self : BitrateStats)
    err d s1 err1 :
  _calculate_duration self err = (Ok (d, s1), err1) ->
  exists total,
    py_sum (map Frame.duration (frames self)) = Ok (VNum total)
    /\ d = VNum (fround total 2)
    /\ s1 = set_duration d self /\ err1 = err.
Proof.
  unfold _calculate_duration. unfold_monad.
  destruct (py_sum _) as [total|e] eqn:Es; [|discriminate].
  destruct total as [t| |]; cbn [py_round]; try discriminate.
  intros E. inversion E; subst. exists t. repeat split.
Qed.

Lemma calculate_fps_returns `{Builtins} (self : BitrateStats) err f s1 err1 :
  _calculate_fps self err = (Ok (f, s1), err1) ->
  py_truediv (VNum (float_of_nat (List.length (frames self))))
    (duration self) = Ok f
  /\ s1 = set_fps f self /\ err1 = err.
Proof.
  unfold _calculate_fps. unfold_monad.
  destruct (py_truediv _ _) as [f'|e] eqn:Ed; [|discriminate].
  intros E. inversion E; subst. repeat split.
Qed.

Lemma py_max_of_some (xs : list value) (v : value) :
  py_max xs = Ok v -> xs <> [].
Proof. destruct xs; discriminate. Qed.

Lemma calculate_max_min_returns `{Builtins} (self : BitrateStats)
    err mx mn s1 err1 :
  _calculate_max_min_bitrate self err = (Ok ((mx, mn), s1), err1) ->
  exists c,
    chunk_series self = Ok c /\ c <> []
    /\ py_max c = Ok mx /\ py_min c = Ok mn
    /\ s1 = set_min_bitrate mn (set_chunks c (set_max_bitrate mx
              (set_chunks c self))).
Proof.
  unfold _calculate_max_min_bitrate. intros E.
  bind_step E c Hc. apply collect_chunks_returns in Hc.
  destruct Hc as [Hc ->].
  lift_step E mx' Hmx.
  bind_step E u Hmod. apply modify_ok in Hmod. destruct Hmod as (-> & ->).
  bind_step E c2 Hc2. apply collect_chunks_returns in Hc2.
  destruct Hc2 as [Hc2 ->].
  assert (Hne : c <> []) by (eapply py_max_of_some; eauto).
  rewrite (chunk_series_of_cache _ c) in Hc2; [|reflexivity|exact Hne].
  inversion Hc2; subst c2. clear Hc2.
  lift_step E mn' Hmn.
  bind_step E u2 Hmod. apply modify_ok in Hmod. destruct Hmod as (-> & ->).
  unfold ret in E. inversion E; subst. clear E.
  exists c. repeat split; assumption.
Qed.

Lemma assemble_returns `{Builtins} (self : BitrateStats) err r s1 err1
    (c : list value) :
  _chunks self = c -> c <> [] ->
  _assemble_bitrate_statistics self err = (Ok (r, s1), err1) ->
  exists kbit ab mbf,
    int_truediv (sum_sizes (frames self) * 8) 1000 = Ok kbit
    /\ py_truediv (VNum kbit) (duration self) = Ok ab
    /\ py_truediv (max_bitrate self) ab = Ok mbf
    /\ py_round mbf (rounding_factor self) = Ok (s_max_bitrate_factor r)
    /\ py_round (duration self) (rounding_factor self) = Ok (s_duration r)
    /\ avg_bitrate s1 = Some ab
    /\ max_bitrate_factor s1 = Some mbf
    /\ max_bitrate s1 = max_bitrate self
    /\ duration s1 = duration self
    /\ _chunks s1 = c.
Proof.
  intros Hc Hne E. unfold _assemble_bitrate_statistics in E.
  bind_step E self0 Hget. apply get_ok in Hget.
  destruct Hget as (-> & -> & ->).
  lift_step E kbit Hk.
  lift_step E ab Hab.
  bind_step E c1 Hc1. apply collect_chunks_returns in Hc1.
  destruct Hc1 as [Hc1 ->].
  rewrite (chunk_series_of_cache self (_chunks self) eq_refl Hne) in Hc1.
  inversion Hc1; subst c1. clear Hc1.
  lift_step E mean Hmean.
  lift_step E mbf Hmbf.
  cbv zeta in E.
  lift_step E rfps Hrfps.
  lift_step E ravg Hravg.
  lift_step E rmax Hrmax.
  lift_step E rmin Hrmin.
  lift_step E rmbf Hrmbf.
  bind_step E c2 Hc2. apply collect_chunks_returns in Hc2.
  destruct Hc2 as [Hc2 ->].
  rewrite set_chunks_unchanged in Hc2.
  rewrite (chunk_series_of_cache self (_chunks self) eq_refl Hne) in Hc2.
  inversion Hc2; subst c2. clear Hc2.
  lift_step E rchunks Hrchunks.
  lift_step E rdur Hrdur.
  bind_step E u Hmod. apply modify_ok in Hmod. destruct Hmod as (-> & ->).
  unfold ret in E. inversion E; subst. clear E.
  exists kbit, ab, mbf.
  cbn [avg_bitrate max_bitrate_factor max_bitrate duration _chunks
       s_max_bitrate_factor s_duration set_assembled set_chunks].
  repeat split; assumption.
Qed.

Lemma statistics_return `{Builtins} (self : BitrateStats) err r s' err' :
  statistics_of_frames self err = (Ok (r, s'), err') ->
  exists total c mx kbit ab mbf,
    py_sum (map Frame.duration (frames self)) = Ok (VNum total)
    /\ chunk_series self = Ok c /\ c <> []
    /\ py_max c = Ok mx
    /\ int_truediv (sum_sizes (frames self) * 8) 1000 = Ok kbit
    /\ py_truediv (VNum kbit) (VNum (fround total 2)) = Ok ab
    /\ py_truediv mx ab = Ok mbf
    /\ py_round mbf (rounding_factor self) = Ok (s_max_bitrate_factor r)
    /\ py_round (VNum (fround total 2)) (rounding_factor self)
       = Ok (s_duration r)
    /\ max_bitrate s' = mx
    /\ duration s' = VNum (fround total 2)
    /\ avg_bitrate s' = Some ab
    /\ max_bitrate_factor s' = Some mbf
    /\ _chunks s' = c.
Proof.
  unfold statistics_of_frames. intros E.
  bind_step E d Hd. apply calculate_duration_returns in Hd.
  destruct Hd as (total & Hsum & -> & -> & ->).
  bind_step E f Hf. apply calculate_fps_returns in Hf.
  destruct Hf as (Hfps & -> & ->).
  bind_step E mm Hmm. destruct mm as [mx mn].
  apply calculate_max_min_returns in Hmm.
  destruct Hmm as (c & Hc & Hne & Hmx & Hmn & ->).
  eapply (assemble_returns _ _ _ _ _ c) in E; [|reflexivity|exact Hne].
  destruct E as (kbit & ab & mbf & Hk & Hab & Hmbf & Hr1 & Hr2
                 & Ha & Hb & Hm & Hd & Hcc).
  exists total, c, mx, kbit, ab, mbf.
  cbn [frames duration max_bitrate rounding_factor set_min_bitrate
       set_max_bitrate set_chunks set_fps set_duration]
    in Hk, Hab, Hmbf, Hr1, Hr2, Hm, Hd.
  repeat split; try assumption.
Qed.

(** ** Sample streams *)

(** The object [__init__] returns for a video stream, once
    [_calculate_frame_sizes] has stored the packets [fs]. *)
Definition measured (aggregation : string) (chunk_size : float)
    (fs : list frame) : BitrateStats :=
  {| input_file := "in.mp4";
     stream_type := "video";
     aggregation := aggregation;
     chunk_size := VNum chunk_size;
     dry_run := false;
     verbose := false;
     duration := VNum zero;
     fps := VNum zero;
     max_bitrate := VNum zero;
     min_bitrate := VNum zero;
     moving_avg_bitrate := [];
     frames := fs;
     bitrate_stats := None;
     rounding_factor := 3;
     _chunks := [];
     avg_bitrate := None;
     avg_bitrate_over_chunks := None;
     max_bitrate_factor := None |}.

(** A packet that is no key frame, with a float for [pts] and for
    [duration]. *)
Definition packet_at (n : Z) (pts : float) (size : Z) (dur : float) : frame :=
  Frame.mk n "Non-I" (VNum pts) size (VNum dur).

Definition one : float := dec 1 0.

(** ** A total duration that rounds to zero *)

(** C10.  When the durations sum to a float that [round(_, 2)] takes to a
    zero, [_calculate_fps] divides the number of packets by that zero: the
    statistics end with [ZeroDivisionError], nothing is written and no
    record is built.  On the object [_calculate_duration] leaves,
    [_calculate_fps] raises it, and so does the division for [avg_bitrate]
    in [_assemble_bitrate_statistics], once the kilobits are a float. *)
Theorem zero_rounded_duration_divides_by_zero `{Builtins}
    (self : BitrateStats) (err : list string) (total : float) :
  py_sum (map Frame.duration (frames self)) = Ok (VNum total) ->
  fis_zero (fround total 2) = true ->
  statistics_of_frames self err = (Raise ZeroDivisionError, err)
  /\ _calculate_fps (set_duration (VNum (fround total 2)) self) err
     = (Raise ZeroDivisionError, err)
  /\ _assemble_bitrate_statistics
       (set_duration (VNum (fround total 2)) self) err
     = match int_truediv (sum_sizes (frames self) * 8) 1000 with
       | Ok _ => (Raise ZeroDivisionError, err)
       | Raise e => (Raise e, err)
       end.
Proof.
  intros Hsum Hz.
  assert (Hfps : _calculate_fps (set_duration (VNum (fround total 2)) self)
                   err = (Raise ZeroDivisionError, err)).
  { unfold _calculate_fps. unfold_monad. cbn [duration set_duration frames].
    unfold py_truediv. rewrite Hz. reflexivity. }
  split; [|split].
  - unfold statistics_of_frames.
    assert (Hd : _calculate_duration self err
                 = (Ok (VNum (fround total 2),
                        set_duration (VNum (fround total 2)) self), err)).
    { unfold _calculate_duration. unfold_monad. rewrite Hsum. reflexivity. }
    rewrite (bind_then _ _ _ _ _ _ _ Hd).
    unfold bind at 1. rewrite Hfps. reflexivity.
  - exact Hfps.
  - unfold _assemble_bitrate_statistics.
    unfold bind at 1. unfold get. unfold bind at 1.
    cbn [frames set_duration].
    destruct (int_truediv _ _) as [kbit|e]; cbn [lift]; unfold ret, raise;
      [|reflexivity].
    unfold bind at 1. cbn [duration set_duration]. unfold py_truediv.
    rewrite Hz. reflexivity.
Qed.

(** Two packets of two milliseconds each. *)
Definition brief_stats : BitrateStats :=
  measured "time" one
    [ packet_at 1 zero 1000 (dec 2 3);
      packet_at 2 (dec 2 3) 1000 (dec 2 3) ].

Lemma zero_rounded_duration_divides_by_zero_witness :
  py_sum (builtins := cpython) (map Frame.duration (frames brief_stats))
  = Ok (VNum (dec 4 3))
  /\ fround (dec 4 3) 2 = zero
  /\ statistics_of_frames (builtins := cpython) brief_stats []
     = (Raise ZeroDivisionError, []).
Proof.
  split; [vm_compute; reflexivity|].
  split; [vm_compute; reflexivity|].
  apply (zero_rounded_duration_divides_by_zero (H := cpython)
           brief_stats [] (dec 4 3)).
  - vm_compute. reflexivity.
  - vm_compute. reflexivity.
Defined.

(** ** The duration of the summary record *)

(** C8, amended.  When the statistics succeed, the [duration] of the
    summary record is the float [sum] returns for the packet durations,
    rounded to 2 decimal places by [_calculate_duration] and then, as every
    number of the record is, to the places of [rounding_factor]. *)
Theorem summary_duration_is_rounded_twice `{Builtins} (self : BitrateStats)
    (err : list string) (r : summary) (self' : BitrateStats)
    (err' : list string) :
  statistics_of_frames self err = (Ok (r, self'), err') ->
  exists total,
    py_sum (map Frame.duration (frames self)) = Ok (VNum total)
    /\ duration self' = VNum (fround total 2)
    /\ s_duration r
       = VNum (fround (fround total 2) (rounding_factor self)).
Proof.
  intros E. apply statistics_return in E.
  destruct E as (total & c & m & kbit & ab & mbf & Hsum & Hc & Hne & Hmax
                 & Hk & Hab & Hmbf & Hr1 & Hr2 & Hm & Hd & Ha & Hf & Hcc).
  exists total. split; [exact Hsum|]. split; [exact Hd|].
  cbn [py_round] in Hr2. now inversion Hr2.
Qed.

(** Two packets one second apart that declare 0.617 s each: the durations
    sum to 1.234. *)
Definition long_tail_stats : BitrateStats :=
  measured "time" one
    [ packet_at 1 zero 1000 (dec 617 3);
      packet_at 2 one 1000 (dec 617 3) ].

Lemma summary_duration_is_rounded_twice_witness :
  exists r self' err',
    statistics_of_frames (builtins := cpython) long_tail_stats []
    = (Ok (r, self'), err')
    /\ exists total,
         py_sum (builtins := cpython)
           (map Frame.duration (frames long_tail_stats)) = Ok (VNum total)
         /\ duration self' = VNum (fround total 2)
         /\ s_duration r
            = VNum (fround (fround total 2)
                      (rounding_factor long_tail_stats)).
Proof.
  eexists. eexists. eexists. split.
  - vm_compute. reflexivity.
  - eapply (summary_duration_is_rounded_twice (H := cpython)
              long_tail_stats []).
    vm_compute. reflexivity.
Defined.

(** C8, as stated, fails: the durations sum to 1.234, which is itself
    when rounded to 3 decimal places, and the record reports 1.23. *)
Theorem summary_duration_loses_third_decimal :
  exists r self' err' total,
    statistics_of_frames (builtins := cpython) long_tail_stats []
    = (Ok (r, self'), err')
    /\ py_sum (builtins := cpython)
         (map Frame.duration (frames long_tail_stats)) = Ok (VNum total)
    /\ fround total 3 = dec 1234 3
    /\ s_duration r = VNum (dec 123 2)
    /\ s_duration r <> VNum (fround total 3).
Proof.
  eexists. eexists. eexists. eexists.
  split; [vm_compute; reflexivity|].
  split; [vm_compute; reflexivity|].
  split; [vm_compute; reflexivity|].
  split; [vm_compute; reflexivity|].
  vm_compute. discriminate.
Qed.

(** ** The maximum of the chunk series and its factor *)










(** ** A chunk that spans no time *)

(** The outcomes of a guarded computation: a value, which a sentinel would
    be, or the exit by which the program reports an error of its own. *)
Definition guarded_outcome (r : result value) : Prop :=
  (exists v, r = Ok v) \/ (exists code, r = Raise (SystemExit code)).

(** C5, amended.  Nothing guards the division of the chunk bitrate: for a
    chunk of two packets or more whose differences of consecutive
    presentation times, each a float subtraction, have a zero for their
    [sum], the kilobits are divided by that zero and the division raises
    [ZeroDivisionError]. *)
Theorem zero_span_division_raises `{Builtins} (frame_list : list frame)
    (ds : list float) (kbit : float) :
  (1 < List.length frame_list)%nat ->
  deltas_of (combine (tl (map Frame.pts frame_list))
               (map Frame.pts frame_list)) = Ok ds ->
  fis_zero (sum_floats ds) = true ->
  int_truediv (sum_sizes frame_list * 8) 1000 = Ok kbit ->
  _bitrate_for_frame_list frame_list = Raise ZeroDivisionError
  /\ ~ guarded_outcome (_bitrate_for_frame_list frame_list).
Proof.
  intros Hlen Hds Hz Hk.
  assert (E : _bitrate_for_frame_list frame_list = Raise ZeroDivisionError).
  { unfold _bitrate_for_frame_list.
    apply Nat.ltb_lt in Hlen. rewrite Hlen.
    cbv zeta. rewrite Hds, Hk. unfold py_truediv. now rewrite Hz. }
  split; [exact E|].
  rewrite E. intros [[v Hv]|[code Hv]]; discriminate.
Qed.

(** Two packets at the same presentation time. *)
Definition coincident_packets : list frame :=
  [ packet_at 1 one 1000 (dec 4 2); packet_at 2 one 1000 (dec 4 2) ].

Lemma zero_span_division_raises_witness :
  _bitrate_for_frame_list (builtins := cpython) coincident_packets
  = Raise ZeroDivisionError
  /\ ~ guarded_outcome
         (_bitrate_for_frame_list (builtins := cpython) coincident_packets).
Proof.
  apply (zero_span_division_raises (H := cpython) coincident_packets
           [zero] (dec 16 0)).
  - vm_compute. reflexivity.
  - vm_compute. reflexivity.
  - vm_compute. reflexivity.
  - vm_compute. reflexivity.
Defined.

(** C5, as stated, fails: on three packets at the same presentation time
    the outcome is the [ZeroDivisionError] of the division operator,
    neither a value nor an exit of the program's own. *)
Theorem zero_span_division_is_unguarded :
  ~ guarded_outcome
      (_bitrate_for_frame_list (builtins := cpython)
         (coincident_packets ++ [packet_at 3 one 500 (dec 4 2)])).
Proof.
  assert (E : _bitrate_for_frame_list (builtins := cpython)
                (coincident_packets ++ [packet_at 3 one 500 (dec 4 2)])
              = Raise ZeroDivisionError) by (vm_compute; reflexivity).
  rewrite E. intros [[v Hv]|[code Hv]]; discriminate.
Qed.

(** ** The time window *)

(** The running total of a chunk: the floats its packets give for their
    durations, added one by one from the left to [0.0].  That is [agg_time]
    for the first chunk; for a later chunk [agg_time] starts from the
    duration of the first packet, the same number up to the sign of a
    zero, which no comparison sees. *)
Fixpoint running_from `{Builtins} (acc : float) (c : list frame)
    : result float :=
  match c with
  | [] => Ok acc
  | f :: rest =>
      match py_float (Frame.duration f) with
      | Ok d => running_from (fadd acc d) rest
      | Raise e => Raise e
      end
  end.

Definition running_total `{Builtins} (c : list frame) : result float :=
  running_from zero c.

(** The running total of the chunk is not below the chunk size, and it is
    below it without the last packet. *)
Definition fills_window `{Builtins} (cs : float) (c : list frame) : Prop :=
  exists t t',
    running_total c = Ok t /\ flt t cs = false
    /\ running_total (removelast c) = Ok t' /\ flt t' cs = true.

Definition reads_duration `{Builtins} (f : frame) : Prop :=
  exists d, py_float (Frame.duration f) = Ok d.

Lemma running_from_snoc `{Builtins} (c : list frame) (f : frame) (d : float) :
  py_float (Frame.duration f) = Ok d ->
  forall acc t,
  running_from acc c = Ok t ->
  running_from acc (c ++ [f]) = Ok (fadd t d).
Proof.
  intros Hd. induction c as [|g c IH]; intros acc t E.
  - cbn in E. inversion E; subst. cbn. now rewrite Hd.
  - cbn [running_from app] in E |- *.
    destruct (py_float (Frame.duration g)) as [dg|e]; [|discriminate].
    now apply IH.
Qed.

Lemma time_loop_fills `{Builtins} (cs : float) (fs : list frame) :
  flt zero cs = true ->
  Forall reads_duration fs ->
  forall chunks curr agg,
  (forall c, In c chunks -> fills_window cs c) ->
  (exists t, running_total curr = Ok t /\ same_number t agg) ->
  (curr <> [] ->
   exists t', running_total (removelast curr) = Ok t' /\ flt t' cs = true) ->
  exists chunks' curr',
    time_loop (VNum cs) fs chunks curr agg = Ok (chunks', curr')
    /\ forall c, In c chunks' -> fills_window cs c.
Proof.
  intros Hpos Hfs. induction Hfs as [|f rest [d Hd] _ IH];
    intros chunks curr agg Hch (t & Ht & Hsame) Hprev.
  - exists chunks, curr. split; [reflexivity|exact Hch].
  - cbn [time_loop py_lt]. rewrite Hd.
    destruct (flt agg cs) eqn:Eagg.
    + apply IH.
      * exact Hch.
      * exists (fadd t d). split.
        -- now apply running_from_snoc.
        -- now apply fadd_same_number.
      * intros _. rewrite removelast_last. exists t. split; [exact Ht|].
        now rewrite (flt_same_number t agg cs Hsame).
    + destruct curr as [|g curr].
      * cbn in Ht. inversion Ht; subst t.
        rewrite (flt_same_number zero agg cs Hsame) in Hpos. congruence.
      * apply IH.
        -- intros c Hc. apply in_app_or in Hc.
           destruct Hc as [Hc|[<-|[]]]; [now apply Hch|].
           destruct Hprev as (t' & Ht' & Hlt'); [discriminate|].
           exists t, t'. repeat split; try assumption.
           now rewrite (flt_same_number t agg cs Hsame).
        -- exists (fadd zero d). split.
           ++ unfold running_total. cbn. now rewrite Hd.
           ++ apply fadd_zero_same.
        -- intros _. exists zero. split; [reflexivity|exact Hpos].
Qed.

(** C2, amended.  In time mode with a chunk size above zero, on packets
    whose durations are floats or are read as floats, the chunker returns,
    and every chunk except the last has a running total of durations that
    is not below the chunk size, and that is below it without the chunk's
    last packet.  The running total is the one the loop keeps: float
    additions from the left, each rounded to the nearest float. *)
Theorem time_chunks_fill_running_window `{Builtins} (cs : float)
    (fs : list frame) :
  flt zero cs = true ->
  Forall reads_duration fs ->
  exists chunks,
    aggregation_chunks_of "time" (VNum cs) fs = Ok chunks
    /\ forall c, In c (removelast chunks) -> fills_window cs c.
Proof.
  intros Hpos Hfs.
  destruct (time_loop_fills cs fs Hpos Hfs [] [] zero)
    as (chunks' & curr' & E & Hall).
  - intros c [].
  - exists zero. split; [reflexivity|now left].
  - intros Hne. now contradiction Hne.
  - exists (chunks' ++ [curr'])%list. split.
    + unfold aggregation_chunks_of.
      change (String.eqb "time" "gop") with false. cbv iota.
      now rewrite E.
    + rewrite removelast_last. exact Hall.
Qed.

Definition tenth : float := dec 1 1.

(** Twelve packets of a tenth of a second. *)
Definition steady_packets : list frame :=
  map (fun i => packet_at i (dec (i - 1) 1) 1000 tenth)
    [1; 2; 3; 4; 5; 6; 7; 8; 9; 10; 11; 12].

Lemma time_chunks_fill_running_window_witness :
  exists chunks,
    aggregation_chunks_of (builtins := cpython) "time" (VNum one)
      steady_packets = Ok chunks
    /\ forall c, In c (removelast chunks) ->
       fills_window (H := cpython) one c.
Proof.
  apply (time_chunks_fill_running_window (H := cpython) one steady_packets).
  - vm_compute. reflexivity.
  - unfold steady_packets. cbn [map].
    repeat (apply Forall_cons; [exists tenth; reflexivity|]).
    apply Forall_nil.
Defined.

(** The sum of the durations of a chunk as rational numbers, without any
    rounding. *)
Definition exact_total (c : list frame) : Q :=
  fold_right Qplus 0%Q
    (map (fun f => match Frame.duration f with
                   | VNum d => Q_of d
                   | _ => 0%Q
                   end) c).

(** C2, as stated, fails.  Of twelve packets of 0.1 s and a chunk size of
    1 s the first chunk takes eleven: after ten the running total is
    0.9999999999999999, still below 1.  The sum of the durations of those
    ten, the chunk without its last packet, is not below the chunk size:
    the float 0.1 is above a tenth. *)
Theorem time_window_sum_reaches_chunk_size :
  exists c rest,
    aggregation_chunks_of (builtins := cpython) "time" (VNum one)
      steady_packets = Ok (c :: rest)
    /\ rest <> []
    /\ List.length c = 11%nat
    /\ running_total (H := cpython) (removelast c)
       = Ok (S754_finite false 9007199254740991 (-53))
    /\ ~ (exact_total (removelast c) < Q_of one)%Q.
Proof.
  eexists. eexists.
  split; [vm_compute; reflexivity|].
  split; [discriminate|].
  split; [reflexivity|].
  split; [vm_compute; reflexivity|].
  vm_compute. discriminate.
Qed.
